(** * Outlook exporter: path sanitising, folder paths, duplicate tracking,
      filters and export strategies

    A shallow embedding of the logic of [main.py] and of the
    [outlook_exporter] package (storage/path_utils.py, core/duplicates.py,
    filters/, exporters/), followed by the properties proved about it.

    Conventions.
    - A Python [str] is a list of Unicode code points ([N]).
    - A Python [int] is a [Z]; lengths and loop counters are [nat].
    - A call that may raise returns an [outcome]; state (file system, log,
      result counters) is passed explicitly.
    - Library functions whose body is not part of the repository
      ([str.lower], [hashlib.md5], the flavour-specific part of [pathlib])
      are Section variables. *)

From stdpp Require Import base decidable countable gmap list strings.
From Stdlib Require Import ZArith NArith Lia DecimalNat.

Open Scope Z_scope.

(* ===================================================================== *)
(** * Part I. The model                                                    *)
(* ===================================================================== *)

(** ** Python strings *)

Module PyStr.

Definition char := N.
Definition str := list char.

(** An ASCII literal as a [str]. *)
Definition py (s : string) : str :=
  (fun a => Ascii.N_of_ascii a) <$> String.list_ascii_of_string s.

(** [str.isspace] for one code point, the set CPython's [str.strip()]
    removes: U+0009..U+000D, U+001C..U+0020, U+0085, U+00A0, U+1680,
    U+2000..U+200A, U+2028, U+2029, U+202F, U+205F, U+3000. *)
Definition is_space (c : char) : bool :=
  ((9 <=? c) && (c <=? 13) || (28 <=? c) && (c <=? 32)
   || (c =? 133) || (c =? 160) || (c =? 5760)
   || (8192 <=? c) && (c <=? 8202)
   || (c =? 8232) || (c =? 8233) || (c =? 8239) || (c =? 8287)
   || (c =? 12288))%N.

Definition mem (c : char) (cs : str) : bool := existsb (N.eqb c) cs.

(** [s.lstrip(...)]: drop the longest prefix of characters satisfying [P]. *)
Fixpoint lstrip_by (P : char -> bool) (s : str) : str :=
  match s with
  | [] => []
  | c :: s' => if P c then lstrip_by P s' else s
  end.

(** [s.rstrip(...)]: drop the longest suffix of characters satisfying [P]. *)
Definition rstrip_by (P : char -> bool) (s : str) : str :=
  reverse (lstrip_by P (reverse s)).

(** [s.strip()] *)
Definition strip (s : str) : str := rstrip_by is_space (lstrip_by is_space s).

(** [s.rstrip(chars)] *)
Definition rstrip (chars : str) (s : str) : str :=
  rstrip_by (fun c => mem c chars) s.

(** [s[:n]] for an [int] n, negative values counting from the end. *)
Definition slice_to (n : Z) (s : str) : str :=
  if 0 <=? n then take (Z.to_nat n) s
  else take (Z.to_nat (Z.of_nat (length s) + n)) s.

(** [len(s)] *)
Definition len (s : str) : Z := Z.of_nat (length s).

(** [needle in haystack] *)
Fixpoint is_prefix (p s : str) : bool :=
  match p, s with
  | [], _ => true
  | _ :: _, [] => false
  | a :: p', b :: s' => (a =? b)%N && is_prefix p' s'
  end.

Fixpoint contains (needle haystack : str) : bool :=
  is_prefix needle haystack ||
  match haystack with
  | [] => false
  | _ :: h' => contains needle h'
  end.

(** The ASCII part of [str.lower], used to run examples. *)
Definition ascii_lower_char (c : char) : char :=
  if ((65 <=? c) && (c <=? 90))%N then (c + 32)%N else c.
Definition ascii_lower (s : str) : str := ascii_lower_char <$> s.

(** [str(k)] for a natural number: its decimal digits. *)
Fixpoint digits_of_uint (d : Decimal.uint) : str :=
  match d with
  | Decimal.Nil => []
  | Decimal.D0 d' => 48%N :: digits_of_uint d'
  | Decimal.D1 d' => 49%N :: digits_of_uint d'
  | Decimal.D2 d' => 50%N :: digits_of_uint d'
  | Decimal.D3 d' => 51%N :: digits_of_uint d'
  | Decimal.D4 d' => 52%N :: digits_of_uint d'
  | Decimal.D5 d' => 53%N :: digits_of_uint d'
  | Decimal.D6 d' => 54%N :: digits_of_uint d'
  | Decimal.D7 d' => 55%N :: digits_of_uint d'
  | Decimal.D8 d' => 56%N :: digits_of_uint d'
  | Decimal.D9 d' => 57%N :: digits_of_uint d'
  end.

Definition decimal (k : nat) : str := digits_of_uint (Nat.to_uint k).

End PyStr.

Import PyStr.

(** ** Outcomes of calls that may raise *)

Inductive exn : Type :=
| TypeError (msg : string)
| ValueError (msg : string)
| AttributeError (msg : string)
| OSError (msg : string)
| DuplicateDetectionError (msg : string).

Inductive outcome (A : Type) : Type :=
| Ok (a : A)
| Raise (e : exn).
Arguments Ok {A} a.
Arguments Raise {A} e.

(** ** storage/path_utils.py and main.py: the sanitisers *)

Module PathUtils.

(** The character class of the [re.sub] call: backslash, slash, colon,
    star, question mark, double quote, less-than, greater-than,
    vertical bar. *)
Definition invalid_chars : str := [92; 47; 58; 42; 63; 34; 60; 62; 124]%N.

Definition underscore : char := 95%N.
Definition dot : char := 46%N.
Definition space : char := 32%N.

Definition replace_invalid (s : str) : str :=
  (fun c => if mem c invalid_chars then underscore else c) <$> s.

(** [sanitize_for_filesystem(value, max_length)], path_utils.py 11-48. *)
Definition sanitize_for_filesystem (value : str) (max_length : Z) : str :=
  let value := strip value in
  let value := replace_invalid value in
  let value := rstrip [dot; space] value in
  let value :=
    if len value >? max_length
    then rstrip [underscore; dot; space] (slice_to max_length value)
    else value in
  match value with
  | [] => [underscore]
  | _ => value
  end.

End PathUtils.

Module Main.

(** [sanitize_for_fs(value, max_length)], main.py 171-183. *)
Definition sanitize_for_fs (value : str) (max_length : Z) : str :=
  let value := strip value in
  let value :=
    (fun c => if mem c [92; 47; 58; 42; 63; 34; 60; 62; 124]%N
              then 95%N else c) <$> value in
  let value := rstrip (py ". ") value in
  let value :=
    if len value >? max_length
    then rstrip (py "_. ") (slice_to max_length value)
    else value in
  if decide (value = []) then py "_" else value.

End Main.


(** ** pathlib, as far as the repository uses it *)

Module Pathlib.

(** A pure path as CPython keeps it: the anchor (drive and root) and the
    remaining components.  Components of a parsed path contain no
    separator and are never empty. *)
Record Path : Type := mkPath { anchor : str; tail : list str }.

#[global] Instance Path_eq_dec : EqDecision Path.
Proof. solve_decision. Defined.

#[global] Instance Path_countable : Countable Path.
Proof.
  refine (inj_countable' (fun p => (anchor p, tail p))
                         (fun '(a, t) => mkPath a t) _).
  by intros [].
Defined.

(** [path.name]: the final component, empty for a bare anchor. *)
Definition name (p : Path) : str := default [] (last (tail p)).

(** [s.rfind(c)], [None] standing for -1. *)
Fixpoint rfind (c : char) (s : str) : option nat :=
  match s with
  | [] => None
  | x :: s' =>
      match rfind c s' with
      | Some i => Some (S i)
      | None => if (x =? c)%N then Some O else None
      end
  end.

(** [path.suffix]: [name[i:]] when [0 < i < len(name) - 1] for
    [i = name.rfind('.')], else the empty string. *)
Definition suffix (p : Path) : str :=
  match rfind 46%N (name p) with
  | Some i =>
      if (0 <? i)%nat && (S i <? length (name p))%nat
      then drop i (name p) else []
  | None => []
  end.

(** [path.stem]: [name[:i]] under the same test, else the whole name. *)
Definition stem (p : Path) : str :=
  match rfind 46%N (name p) with
  | Some i =>
      if (0 <? i)%nat && (S i <? length (name p))%nat
      then take i (name p) else name p
  | None => name p
  end.

(** [path.with_name(new)]: ValueError on a path without a name or on an
    invalid new name; else the final component is replaced. *)
Definition with_name (p : Path) (new : str) : outcome Path :=
  if decide (name p = []) then Raise (ValueError "path has an empty name")
  else if decide (new = [] \/ new = [46%N])
  then Raise (ValueError "invalid name")
  else Ok (mkPath (anchor p) (removelast (tail p) ++ [new])).

(** [path.with_suffix(new)]: ValueError on a path without a name or on a
    suffix that is not empty and is a bare dot or does not start with a
    dot; else the old suffix of the name gives way to the new one. *)
Definition with_suffix (p : Path) (new : str) : outcome Path :=
if decide (new = [46%N]) then Raise (ValueError "invalid suffix")
else if negb (bool_decide (new = [])) && negb (is_prefix [46%N] new)
then Raise (ValueError "invalid suffix")
else if decide (name p = []) then Raise (ValueError "path has an empty name")
else Ok (mkPath (anchor p)
           (removelast (tail p)
              ++ [take (length (name p) - length (suffix p)) (name p) ++ new])).

(** [parent / segment] for a segment that is one plain component (no
    separator, not empty, not a dot): the component is appended.  The
    sanitiser's results and formatted dates are such segments. *)
Definition child (p : Path) (segment : str) : Path :=
  mkPath (anchor p) (tail p ++ [segment]).

(** The ancestors of a path that [mkdir(parents=True)] creates with it. *)
Definition parents (p : Path) : list Path :=
  (fun k => mkPath (anchor p) (take k (tail p))) <$> seq 1 (length (tail p) - 1).

End Pathlib.

Import Pathlib.

(** ** storage/path_utils.py: folder path and unique path *)

Module FolderPath.
Section Builder.

(** [base / segment] for an arbitrary string, [str(path)] and
    [hashlib.md5(s.encode('utf-8')).hexdigest()]: library code. *)
Variable truediv : Path -> str -> Path.
Variable path_str : Path -> str.
Variable md5_hexdigest : str -> str.

Local Notation "p // s" := (truediv p s) (at level 40, left associativity).

(** [create_email_folder_path], path_utils.py 50-96. *)
Definition create_email_folder_path
    (base_dir : Path) (sender_email subject date_str : str)
    (subject_max_length : Z) : Path :=
  let sender := PathUtils.sanitize_for_filesystem sender_email 120 in
  let subject_sanitized :=
    PathUtils.sanitize_for_filesystem subject subject_max_length in
  let target_dir := base_dir // sender // subject_sanitized // date_str in
  if len (path_str target_dir) >? 200 then
    let short_subject := PathUtils.sanitize_for_filesystem subject 50 in
    let target_dir := base_dir // sender // short_subject // date_str in
    if len (path_str target_dir) >? 200 then
      let subject_hash := slice_to 8 (md5_hexdigest subject) in
      let target_dir :=
        base_dir // sender // (py "subj_" ++ subject_hash) // date_str in
      if len (path_str target_dir) >? 200 then
        let fallback_name := sender ++ py "_" ++ date_str in
        base_dir // PathUtils.sanitize_for_filesystem fallback_name 100
      else target_dir
    else target_dir
  else target_dir.

(** The four rungs of the ladder as the specification lists them. *)
Definition rung0 base_dir sender_email subject date_str sml : Path :=
  base_dir // PathUtils.sanitize_for_filesystem sender_email 120
           // PathUtils.sanitize_for_filesystem subject sml // date_str.
Definition rung1 base_dir sender_email subject date_str : Path :=
  base_dir // PathUtils.sanitize_for_filesystem sender_email 120
           // PathUtils.sanitize_for_filesystem subject 50 // date_str.
Definition rung2 base_dir sender_email subject date_str : Path :=
  base_dir // PathUtils.sanitize_for_filesystem sender_email 120
           // (py "subj_" ++ take 8 (md5_hexdigest subject)) // date_str.
Definition rung3 base_dir sender_email date_str : Path :=
  base_dir // PathUtils.sanitize_for_filesystem
                (PathUtils.sanitize_for_filesystem sender_email 120
                   ++ py "_" ++ date_str) 100.

(** Specification side: the first candidate whose string has at most 200
    characters, the last resort when none has. *)
Fixpoint first_fitting (candidates : list Path) (last_resort : Path) : Path :=
  match candidates with
  | [] => last_resort
  | c :: rest =>
      if decide (length (path_str c) <= 200)%nat then c
      else first_fitting rest last_resort
  end.

End Builder.
End FolderPath.

Module UniquePath.

(** The file system as [Path.exists] sees it: the finite set of paths
    that exist. *)
Definition exists_ (fs : gset Path) (p : Path) : bool := bool_decide (p ∈ fs).

(** [path.with_name(f"{path.stem}_{counter}{path.suffix}")] *)
Definition numbered (path : Path) (counter : nat) : outcome Path :=
  with_name path (stem path ++ py "_" ++ decimal counter ++ suffix path).

(** The [while True] loop of [ensure_unique_path], bounded by fuel:
    [None] when the fuel runs out before the loop returns. *)
Fixpoint unique_loop (fuel : nat) (fs : gset Path) (path : Path)
    (counter : nat) : option (outcome Path) :=
  match fuel with
  | O => None
  | S fuel' =>
      match numbered path counter with
      | Raise e => Some (Raise e)
      | Ok new_path =>
          if negb (exists_ fs new_path) then Some (Ok new_path)
          else unique_loop fuel' fs path (S counter)
      end
  end.

(** [ensure_unique_path(path)], path_utils.py 98-122. *)
Definition ensure_unique_path (fuel : nat) (fs : gset Path) (path : Path)
    : option (outcome Path) :=
  if negb (exists_ fs path) then Some (Ok path)
  else unique_loop fuel fs path 1.

(** Specification side: the sequence p, p_1, p_2, ... *)
Definition candidate (path : Path) (k : nat) : Path :=
  match k with
  | O => path
  | S _ => mkPath (anchor path)
             (removelast (tail path)
                ++ [stem path ++ py "_" ++ decimal k ++ suffix path])
  end.

End UniquePath.

(** ** core/duplicates.py *)

Module Duplicates.

(** [DuplicateTracker]: the algorithm name and [seen_hashes]. *)
Record DuplicateTracker : Type := mkTracker {
  hash_algorithm : str;
  seen_hashes : gmap str (list Path)
}.

(** [__init__], duplicates.py 27-43; [algorithms_available] is hashlib's
    set of names. *)
Definition init (algorithms_available : list str) (algorithm : str)
    : outcome DuplicateTracker :=
  if decide (algorithm ∈ algorithms_available)
  then Ok (mkTracker algorithm ∅)
  else Raise (DuplicateDetectionError "hash algorithm is not available").

(** [is_duplicate], duplicates.py 74-83. *)
Definition is_duplicate (t : DuplicateTracker) (file_hash : str) : bool :=
  bool_decide (is_Some (seen_hashes t !! file_hash)).

(** [register_file], duplicates.py 85-96. *)
Definition register_file (t : DuplicateTracker) (file_path : Path)
    (file_hash : str) : DuplicateTracker :=
  let seen :=
    if negb (is_duplicate t file_hash)
    then <[file_hash := []]> (seen_hashes t) else seen_hashes t in
  let paths := default [] (seen !! file_hash) in
  mkTracker (hash_algorithm t) (<[file_hash := paths ++ [file_path]]> seen).

(** [get_original_locations], duplicates.py 98-107. *)
Definition get_original_locations (t : DuplicateTracker) (file_hash : str)
    : list Path :=
  default [] (seen_hashes t !! file_hash).

Record Statistics : Type := mkStats {
  unique_files : Z;
  total_files : Z;
  duplicate_files : Z
}.

(** [get_statistics], duplicates.py 109-126. *)
Definition get_statistics (t : DuplicateTracker) : Statistics :=
  let unique_files := Z.of_nat (size (seen_hashes t)) in
  let total_files :=
    map_fold (fun _ paths acc => Z.of_nat (length paths) + acc) 0
             (seen_hashes t) in
  mkStats unique_files total_files (total_files - unique_files).

(** [clear], duplicates.py 128-131. *)
Definition clear (t : DuplicateTracker) : DuplicateTracker :=
  mkTracker (hash_algorithm t) ∅.

(** The calls a client can make on a tracker, and the state they lead to. *)
Inductive call : Type :=
| Register (file_path : Path) (file_hash : str)
| Clear.

Definition step (t : DuplicateTracker) (c : call) : DuplicateTracker :=
  match c with
  | Register p h => register_file t p h
  | Clear => clear t
  end.

Definition run (t : DuplicateTracker) (calls : list call) : DuplicateTracker :=
  foldl step t calls.

(** Specification side: the registrations still on record after a
    sequence of calls, oldest first. *)
Definition registered (calls : list call) : list (str * Path) :=
  foldl (fun acc c =>
           match c with
           | Register p h => acc ++ [(h, p)]
           | Clear => []
           end) [] calls.

End Duplicates.

(** ** core/models.py *)

Module Models.

(** [EmailMetadata]; times are instants on a linear scale. *)
Record EmailMetadata : Type := mkEmail {
  subject : str;
  sender_email : str;
  sender_name : str;
  received_time : Z;
  sent_time : option Z;
  to_recipients : str;
  cc_recipients : str;
  body : str;
  html_body : str
}.

(** [ExportConfig], with the defaults of the dataclass. *)
Record ExportConfig : Type := mkConfig {
  output_dir : Path;
  include_inline : bool;
  duplicates_subfolder : str;
  hash_algorithm : str;
  dry_run : bool;
  subject_sanitize_length : Z;
  batch_size : Z;
  limit : option Z
}.

Definition default_config (output_dir : Path) : ExportConfig :=
  mkConfig output_dir false (py "duplicates") (py "sha256") false 80 200 None.

(** [ExportResult]: its four counters and the error list. *)
Record ExportResult : Type := mkResult {
  messages_processed : Z;
  messages_matched : Z;
  attachments_saved : Z;
  duplicates_found : Z;
  errors : list string
}.

Definition new_result : ExportResult := mkResult 0 0 0 0 [].

(** [ExportResult.add_error] *)
Definition add_error (r : ExportResult) (e : string) : ExportResult :=
  mkResult (messages_processed r) (messages_matched r) (attachments_saved r)
           (duplicates_found r) (errors r ++ [e]).

(** Reading an attribute of an [ExportResult] instance by name;
    AttributeError for a name the dataclass does not define. *)
Definition getattr_result (r : ExportResult) (attr : string) : outcome Z :=
  if String.eqb attr "messages_processed" then Ok (messages_processed r)
  else if String.eqb attr "messages_matched" then Ok (messages_matched r)
  else if String.eqb attr "attachments_saved" then Ok (attachments_saved r)
  else if String.eqb attr "duplicates_found" then Ok (duplicates_found r)
  else Raise (AttributeError attr).

Definition set_attachments_saved (r : ExportResult) (v : Z) : ExportResult :=
  mkResult (messages_processed r) (messages_matched r) v
           (duplicates_found r) (errors r).

End Models.

Import Models.

(** ** filters/base.py and filters/email_filters.py *)

Module Filters.

(** The filter classes, each with the attributes its instances hold. *)
#[warnings="-register-all"] Inductive EmailFilter : Type :=
| DateRangeFilter (start_date end_date : option Z)
| SenderFilter (senders : list str)
| SubjectKeywordFilter (keywords : list str)
| BodyKeywordFilter (keywords : list str)
| AttachmentPresenceFilter (requires_attachments : bool)
| CompositeFilter (filters : list EmailFilter)
| PassThroughFilter.

Section WithLower.

(** [str.lower] *)
Variable lower : str -> str.

(** The constructors that normalise their argument ([__init__]). *)
Definition new_SenderFilter (senders : list str) : EmailFilter :=
  SenderFilter (lower <$> senders).
Definition new_SubjectKeywordFilter (keywords : list str) : EmailFilter :=
  SubjectKeywordFilter (lower <$> keywords).
Definition new_BodyKeywordFilter (keywords : list str) : EmailFilter :=
  BodyKeywordFilter (lower <$> keywords).

(** [matches] of every class. *)
Fixpoint matches (f : EmailFilter) (email : EmailMetadata) {struct f} : bool :=
  match f with
  | DateRangeFilter start_date end_date =>
      if match start_date with
         | Some d => received_time email <? d
         | None => false
         end then false
      else if match end_date with
              | Some d => received_time email >? d
              | None => false
              end then false
      else true
  | SenderFilter senders =>
      bool_decide (lower (sender_email email) ∈ senders)
  | SubjectKeywordFilter keywords =>
      let subject_lower := lower (subject email) in
      forallb (fun kw => contains kw subject_lower) keywords
  | BodyKeywordFilter keywords =>
      let body_lower := lower (body email) in
      forallb (fun kw => contains kw body_lower) keywords
  | AttachmentPresenceFilter _ => true
  | CompositeFilter filters => forallb (fun f' => matches f' email) filters
  | PassThroughFilter => true
  end.

End WithLower.
End Filters.

(** ** main.py: the command line, the filter and the logging set-up *)

Module MainArgs.

(** The [argparse.Namespace] built by [parse_args]. *)
Record Args : Type := mkArgs {
  output : Path;
  start_date : option str;
  end_date : option str;
  sender : option (list str);
  subject_keyword : option (list str);
  body_keyword : option (list str);
  with_attachments : bool;
  without_attachments : bool;
  folder : option str;
  limit : option Z;
  batch_size : Z;
  dry_run : bool;
  open_folder : bool;
  log_file : option Path;
  duplicates_subfolder : str;
  hash_algorithm : str;
  include_inline : bool;
  export_mail : bool;
  export_markdown : bool;
  subject_sanitize_length : Z;
  verbose : Z;
  quiet : bool
}.

(** The defaults [parse_args] gives for [-o output] alone. *)
Definition default_args (output : Path) : Args :=
  mkArgs output None None None None None false false None None 200 false
         false None (py "duplicates") (py "sha256") false false false 80 0
         false.

(** A mail item as the code reads it: attributes that may be missing or
    [None], the received time as an instant and as the [%Y-%m-%d] string
    [strftime] gives, the attachment count, and whether the client's
    [SaveAs] succeeds. *)
Record Message : Type := mkMessage {
  Subject : option str;
  SenderEmailAddress : option str;
  Body : option str;
  ReceivedTime : Z;
  ReceivedTime_ymd : str;
  Attachments_Count : Z;
  SaveAs_succeeds : bool
}.

(** [value or default] for a string attribute. *)
Definition or_else (v : option str) (d : str) : str :=
  match v with
  | Some (c :: s) => c :: s
  | _ => d
  end.

(** Truth value of an optional list ([if args.sender:]). *)
Definition truthy {A} (l : option (list A)) : bool :=
  match l with
  | Some (_ :: _) => true
  | _ => false
  end.

End MainArgs.

Import MainArgs.

Module MainFilter.
Section WithLibrary.

Variable lower : str -> str.
(** [datetime.strptime(s, "%Y-%m-%d")]: ValueError on a malformed date. *)
Variable strptime_ymd : str -> outcome Z.

(** [parse_date], main.py 116-119. *)
Definition parse_date (date_str : option str) : outcome (option Z) :=
  match date_str with
  | Some (c :: s) =>
      match strptime_ymd (c :: s) with
      | Ok d => Ok (Some d)
      | Raise e => Raise e
      end
  | _ => Ok None
  end.

(** [message_matches], main.py 122-168; an exception in the body makes
    it answer [False]. *)
Definition message_matches (message : Message) (args : Args) : bool :=
  match parse_date (start_date args), parse_date (end_date args) with
  | Ok start, Ok end_ =>
      let msg_date := ReceivedTime message in
      if match start with Some d => msg_date <? d | None => false end
      then false
      else if match end_ with Some d => msg_date >? d | None => false end
      then false
      else if truthy (sender args) &&
              negb (existsb
                      (fun s => bool_decide
                         (lower (or_else (SenderEmailAddress message) [])
                          = lower s))
                      (default [] (sender args)))
      then false
      else if truthy (subject_keyword args) &&
              negb (forallb
                      (fun kw => contains (lower kw)
                                   (lower (or_else (Subject message) [])))
                      (default [] (subject_keyword args)))
      then false
      else if truthy (body_keyword args) &&
              negb (forallb
                      (fun kw => contains (lower kw)
                                   (lower (or_else (Body message) [])))
                      (default [] (body_keyword args)))
      then false
      else
        let has_attachments := Attachments_Count message >? 0 in
        if with_attachments args && negb has_attachments then false
        else if without_attachments args && has_attachments then false
        else true
  | _, _ => false
  end.

End WithLibrary.
End MainFilter.

(** ** The file system and the log *)

Module OS.

(** Directories and regular files that exist. *)
Record FileSystem : Type := mkFS { dirs : gset Path; files : gset Path }.

Definition empty_fs : FileSystem := mkFS ∅ ∅.

(** [path.parent] *)
Definition parent (p : Path) : Path := mkPath (anchor p) (removelast (tail p)).

(** A bare anchor (the root, or the current directory) is a directory. *)
Definition is_dir (fs : FileSystem) (p : Path) : bool :=
bool_decide (tail p = []) || bool_decide (p ∈ dirs fs).

(** [path.exists()] *)
Definition path_exists (fs : FileSystem) (p : Path) : bool :=
is_dir fs p || bool_decide (p ∈ files fs).

(** Everything [path.exists()] can answer [True] for, bare anchors apart. *)
Definition entries (fs : FileSystem) : gset Path := dirs fs ∪ files fs.

(** [path.mkdir(parents=True, exist_ok=True)] *)
Definition mkdir_parents (fs : FileSystem) (p : Path) : outcome FileSystem :=
if bool_decide (p ∈ files fs) then Raise (OSError "FileExistsError")
else if existsb (fun a => bool_decide (a ∈ files fs)) (parents p)
then Raise (OSError "NotADirectoryError")
else Ok (mkFS (dirs fs ∪ {[p]} ∪ list_to_set (parents p)) (files fs)).

(** Creating or overwriting the regular file [p]. *)
Definition write_file (fs : FileSystem) (p : Path) : outcome FileSystem :=
if is_dir fs p then Raise (OSError "IsADirectoryError")
else if negb (is_dir fs (parent p)) then Raise (OSError "FileNotFoundError")
else Ok (mkFS (dirs fs) (files fs ∪ {[p]})).

Inductive level : Type := DEBUG | INFO | WARNING | ERROR.

Definition level_no (l : level) : Z :=
match l with DEBUG => 10 | INFO => 20 | WARNING => 30 | ERROR => 40 end.

(** One emitted log record: level, message, and the path it reports. *)
Record LogRecord : Type := mkRecord {
rec_level : level;
rec_text : string;
rec_path : option Path
}.

(** What a run can change: the file system, the root logger's level, the
    records emitted so far, and whether COM is initialised. *)
Record World : Type := mkWorld {
fs : FileSystem;
log_level : level;
log : list LogRecord;
com_initialized : bool
}.

Definition initial_world (fs : FileSystem) : World := mkWorld fs WARNING [] false.

Definition set_fs (w : World) (fs' : FileSystem) : World :=
mkWorld fs' (log_level w) (log w) (com_initialized w).

(** [logging.<level>(text, path)]: emitted when the level passes. *)
Definition logging_log (l : level) (text : string) (p : option Path)
    (w : World) : World :=
if level_no (log_level w) <=? level_no l
then mkWorld (fs w) (log_level w) (log w ++ [mkRecord l text p])
             (com_initialized w)
else w.

End OS.

Import OS.

(** ** main.py: saving a message and running the export *)

Module MainExport.

(** [setup_logging], main.py 77-98. *)
Definition setup_logging (args : Args) (w : World) : outcome unit * World :=
let level :=
  if quiet args then WARNING
  else if verbose args >=? 2 then DEBUG
  else if verbose args =? 1 then INFO
  else INFO in
let configured fs' := mkWorld fs' level (log w) (com_initialized w) in
match log_file args with
| Some file =>
    match mkdir_parents (fs w) (parent file) with
    | Raise e => (Raise e, w)
    | Ok fs1 =>
        match write_file fs1 file with
        | Raise e => (Raise e, set_fs w fs1)
        | Ok fs2 => (Ok tt, configured fs2)
        end
    end
| None => (Ok tt, configured (fs w))
end.

(** [save_mail], main.py 314-345. *)
Definition save_mail (base_dir : Path) (message : Message) (args : Args)
    (w : World) : outcome (option Path) * World :=
let subject :=
  Main.sanitize_for_fs (or_else (Subject message) [])
                       (subject_sanitize_length args) in
let sender :=
  Main.sanitize_for_fs (or_else (SenderEmailAddress message) (py "unknown"))
                       120 in
let date_folder := ReceivedTime_ymd message in
let target_dir := child (child (child base_dir sender) subject) date_folder in
match mkdir_parents (fs w) target_dir with
| Raise e => (Raise e, w)
| Ok fs1 =>
    let w := set_fs w fs1 in
    let filename := Main.sanitize_for_fs subject 255 ++ py ".msg" in
    let dest_path := child target_dir filename in
    if dry_run args then
      (Ok (Some dest_path),
       logging_log INFO "[DRY-RUN] Would save email" (Some dest_path) w)
    else if SaveAs_succeeds message then
      match write_file (fs w) dest_path with
      | Ok fs2 =>
          (Ok (Some dest_path),
           logging_log INFO "Saved email" (Some dest_path) (set_fs w fs2))
      | Raise _ =>
          (Ok None,
           logging_log WARNING "Failed to save email" (Some dest_path) w)
      end
    else
      (Ok None, logging_log WARNING "Failed to save email" (Some dest_path) w)
end.

Section Run.

(** [process_messages] drives the mail client; [os.startfile] opens the
    output folder.  Both are taken as given. *)
Variable process_messages : Args -> World -> outcome Z * World.
Variable startfile : Path -> World -> outcome unit * World.

Definition set_com (w : World) (b : bool) : World :=
mkWorld (fs w) (log_level w) (log w) b.

(** [run_export], main.py 590-614. *)
Definition run_export (args : Args) (w : World) : outcome Z * World :=
match setup_logging args w with
| (Raise e, w) => (Raise e, w)
| (Ok _, w) =>
    let w := logging_log INFO "Starting Outlook attachments export" None w in
    if with_attachments args && without_attachments args then
      (Ok 2,
       logging_log ERROR
         "Cannot specify both --with-attachments and --without-attachments"
         None w)
    else if export_mail args && export_markdown args then
      (Ok 2,
       logging_log ERROR
         "Cannot specify both --export-mail and --export-markdown" None w)
    else
      let w := set_com w true in
      let '(code, w) :=
        match process_messages args w with
        | (Ok saved, w) =>
            let w :=
              if open_folder args then
                match startfile (output args) w with
                | (Ok _, w) => w
                | (Raise _, w) =>
                    logging_log WARNING "Failed to open folder" None w
                end
              else w in
            (0, logging_log INFO "Completed. Saved attachments" None w)
        | (Raise _, w) => (1, logging_log ERROR "Unhandled error" None w)
        end in
      (Ok code, set_com w false)
end.

End Run.
End MainExport.

(** ** exporters/base.py, exporters/message.py, exporters/attachment.py *)

Module Exporters.

(** A value passed by keyword. *)
Inductive value : Type :=
| VPath (p : Path)
| VStr (s : str)
| VInt (z : Z)
| VTime (t : Z).

Definition kwarg (name : string) (kwargs : list (string * value))
    : option value :=
snd <$> List.find (fun kv => String.eqb (fst kv) name) kwargs.

(** The first keyword a callee with parameters [params] does not accept. *)
Definition unexpected_keyword (params : list string)
    (kwargs : list (string * value)) : option string :=
fst <$> List.find (fun kv => negb (bool_decide (fst kv ∈ params))) kwargs.

(** What the client hands over for one attachment and one message. *)
Record ComAttachment : Type := mkAttachment {
Position : option Z;
Type_ : option Z;
FileName : option str;
SaveAsFile_succeeds : bool;
content_hash : str
}.

Record ComMessage : Type := mkComMessage {
Attachments : outcome (list (outcome ComAttachment));
SaveAs_succeeds : bool
}.

(** The methods [DuplicateTracker] defines (core/duplicates.py). *)
Definition tracker_methods : list string :=
["compute_file_hash"; "is_duplicate"; "register_file";
 "get_original_locations"; "get_statistics"; "clear"].

(** Looking a method up on the tracker: AttributeError when there is none. *)
Definition getattr_tracker (attr : string) : outcome unit :=
if bool_decide (attr ∈ tracker_methods) then Ok tt
else Raise (AttributeError attr).

(** [os.rename] of a regular file. *)
Definition rename (fs : FileSystem) (src dst : Path) : FileSystem :=
mkFS (dirs fs) (files fs ∖ {[src]} ∪ {[dst]}).

(** [ensure_unique_path] on the current file system; a path can collide
    with each existing entry at most once, so this fuel is enough. *)
Definition ensure_unique_path_now (fs : FileSystem) (p : Path) : outcome Path :=
match UniquePath.ensure_unique_path (S (size (entries fs))) (entries fs) p with
| Some r => r
| None => Raise (OSError "ensure_unique_path did not return")
end.

Section WithPathlib.

Variable truediv : Path -> str -> Path.
Variable path_str : Path -> str.
Variable md5_hexdigest : str -> str.
Variable algorithms_available : list str.

(** A keyword call of [create_email_folder_path(base_dir, sender_email,
    subject, date_str, subject_max_length=80)]. *)
Definition call_create_email_folder_path (kwargs : list (string * value))
    : outcome Path :=
match unexpected_keyword
        ["base_dir"; "sender_email"; "subject"; "date_str";
         "subject_max_length"] kwargs with
| Some k => Raise (TypeError ("unexpected keyword argument " ++ k))
| None =>
    match kwarg "base_dir" kwargs, kwarg "sender_email" kwargs,
          kwarg "subject" kwargs, kwarg "date_str" kwargs with
    | Some (VPath b), Some (VStr se), Some (VStr su), Some (VStr d) =>
        let sml := match kwarg "subject_max_length" kwargs with
                   | Some (VInt z) => z
                   | _ => 80
                   end in
        Ok (FolderPath.create_email_folder_path truediv path_str
              md5_hexdigest b se su d sml)
    | _, _, _, _ => Raise (TypeError "missing required argument")
    end
end.

(** A keyword call of [DuplicateTracker(hash_algorithm="sha256")]. *)
Definition call_DuplicateTracker (kwargs : list (string * value))
    : outcome Duplicates.DuplicateTracker :=
match unexpected_keyword ["hash_algorithm"] kwargs with
| Some k => Raise (TypeError ("unexpected keyword argument " ++ k))
| None =>
    match kwarg "hash_algorithm" kwargs with
    | Some (VStr a) => Duplicates.init algorithms_available a
    | _ => Duplicates.init algorithms_available (py "sha256")
    end
end.

(** [BaseExporter._create_base_folder], exporters/base.py 48-72. *)
Definition _create_base_folder (config : ExportConfig) (email : EmailMetadata)
    (w : World) : outcome Path * World :=
match call_create_email_folder_path
        [("base_dir", VPath (output_dir config));
         ("sender_email", VStr (sender_email email));
         ("subject", VStr (subject email));
         ("received_time", VTime (received_time email));
         ("subject_max_length", VInt (Models.subject_sanitize_length config))]
with
| Raise e => (Raise e, w)
| Ok folder_path =>
    if negb (Models.dry_run config) then
      match mkdir_parents (fs w) folder_path with
      | Raise e => (Raise e, w)
      | Ok fs' => (Ok folder_path, set_fs w fs')
      end
    else (Ok folder_path, w)
end.

(** [MessageExporter.export], exporters/message.py 28-67. *)
Definition MessageExporter_export (config : ExportConfig)
    (email : EmailMetadata) (outlook_message : ComMessage)
    (result : ExportResult) (w : World)
    : outcome (option Path) * World * ExportResult :=
match _create_base_folder config email w with
| (Raise e, w) => (Raise e, w, result)
| (Ok folder, w) =>
    let filename :=
      PathUtils.sanitize_for_filesystem (subject email) 255 ++ py ".msg" in
    let dest_path := child folder filename in
    if Models.dry_run config then
      (Ok (Some dest_path),
       logging_log INFO "[DRY-RUN] Would save email" (Some dest_path) w,
       set_attachments_saved result (attachments_saved result + 1))
    else
      match ensure_unique_path_now (fs w) dest_path with
      | Raise e => (Raise e, w, result)
      | Ok final_path =>
          let failed w :=
            (Ok None,
             logging_log WARNING "Failed to save email" (Some final_path) w,
             add_error result "Failed to save email") in
          if SaveAs_succeeds outlook_message then
            match write_file (fs w) final_path with
            | Raise _ => failed w
            | Ok fs' =>
                let w :=
                  logging_log INFO "Saved email" (Some final_path)
                              (set_fs w fs') in
                (* result.files_exported += 1 *)
                match getattr_result result "files_exported" with
                | Raise _ => failed w
                | Ok _ => (Ok (Some final_path), w, result)
                end
            end
          else failed w
      end
end.

(** An [AttachmentExporter] instance. *)
Record AttachmentExporter : Type := mkAttachmentExporter {
config : ExportConfig;
duplicate_tracker : Duplicates.DuplicateTracker
}.

(** [AttachmentExporter.__init__], exporters/attachment.py 30-35. *)
Definition AttachmentExporter_init (config : ExportConfig)
    : outcome AttachmentExporter :=
match call_DuplicateTracker [("algorithm", VStr (Models.hash_algorithm config))]
with
| Raise e => Raise e
| Ok t => Ok (mkAttachmentExporter config t)
end.

(** [AttachmentExporter._save_attachment], exporters/attachment.py 83-153.
    The tracker is looked up for [compute_hash], [is_duplicate],
    [add_duplicate] and [add_file] as the method calls it. *)
Definition _save_attachment (self : AttachmentExporter)
    (attachment : ComAttachment) (folder : Path) (w : World)
    : outcome bool * World :=
if negb (Models.include_inline (config self)) &&
   bool_decide (default 0 (Position attachment) = 0) &&
   bool_decide (Type_ attachment = Some 5)
then (Ok false, logging_log DEBUG "Skipping inline attachment" None w)
else
  let filename :=
    PathUtils.sanitize_for_filesystem
      (or_else (FileName attachment) (py "attachment.bin")) 255 in
  let dest_path := child folder filename in
  if Models.dry_run (config self) then
    (Ok true,
     logging_log INFO "[DRY-RUN] Would save attachment" (Some dest_path) w)
  else
    match with_suffix dest_path (suffix dest_path ++ py ".tmp") with
    | Raise e => (Raise e, w)
    | Ok temp_path =>
        let save_failed :=
          (Ok false,
           logging_log WARNING "Failed to save attachment" (Some dest_path) w)
        in
        if negb (SaveAsFile_succeeds attachment) then save_failed
        else
          match write_file (fs w) temp_path with
          | Raise _ => save_failed
          | Ok fs1 =>
              let w := set_fs w fs1 in
              match getattr_tracker "compute_hash" with
              | Raise e => (Raise e, w)
              | Ok _ =>
                  let file_hash := content_hash attachment in
                  if Duplicates.is_duplicate (duplicate_tracker self) file_hash
                  then
                    let dup_folder :=
                      child folder (Models.duplicates_subfolder (config self))
                    in
                    match mkdir_parents (fs w) dup_folder with
                    | Raise e => (Raise e, w)
                    | Ok fs2 =>
                        let w := set_fs w fs2 in
                        match ensure_unique_path_now (fs w)
                                (child dup_folder filename) with
                        | Raise e => (Raise e, w)
                        | Ok final_path =>
                            let w :=
                              logging_log INFO "Duplicate detected"
                                (Some final_path)
                                (set_fs w (rename (fs w) temp_path final_path))
                            in
                            match getattr_tracker "add_duplicate" with
                            | Raise e => (Raise e, w)
                            | Ok _ => (Ok true, w)
                            end
                        end
                    end
                  else
                    match ensure_unique_path_now (fs w) dest_path with
                    | Raise e => (Raise e, w)
                    | Ok final_path =>
                        let w :=
                          logging_log DEBUG "Saved attachment"
                            (Some final_path)
                            (set_fs w (rename (fs w) temp_path final_path)) in
                        match getattr_tracker "add_file" with
                        | Raise e => (Raise e, w)
                        | Ok _ => (Ok true, w)
                        end
                    end
              end
          end
    end.

(** The [for i in range(1, count + 1)] loop of [export]: the running
    count of saved attachments and the world. *)
Fixpoint export_loop (self : AttachmentExporter)
    (items : list (outcome ComAttachment)) (folder : Path)
    (attachments_saved : Z) (w : World) : Z * World :=
match items with
| [] => (attachments_saved, w)
| item :: rest =>
    let '(attachments_saved, w) :=
      match item with
      | Raise _ =>
          (attachments_saved,
           logging_log DEBUG "Error accessing attachment" None w)
      | Ok attachment =>
          match _save_attachment self attachment folder w with
          | (Ok true, w) => (attachments_saved + 1, w)
          | (Ok false, w) => (attachments_saved, w)
          | (Raise _, w) =>
              (attachments_saved,
               logging_log DEBUG "Error accessing attachment" None w)
          end
      end in
    export_loop self rest folder attachments_saved w
end.

(** [AttachmentExporter.export], exporters/attachment.py 37-81. *)
Definition AttachmentExporter_export (self : AttachmentExporter)
    (email : EmailMetadata) (outlook_message : ComMessage)
    (result : ExportResult) (w : World)
    : outcome (option Path) * World * ExportResult :=
match _create_base_folder (config self) email w with
| (Raise e, w) => (Raise e, w, result)
| (Ok folder, w) =>
    match Attachments outlook_message with
    | Raise _ =>
        (Ok None,
         logging_log WARNING "Failed to access attachments" None w,
         add_error result "Failed to access attachments")
    | Ok attachments =>
        let '(attachments_saved, w) :=
          export_loop self attachments folder 0 w in
        (Ok (if attachments_saved >? 0 then Some folder else None),
         w,
         set_attachments_saved result
           (Models.attachments_saved result + attachments_saved))
    end
end.

End WithPathlib.
End Exporters.

(* ===================================================================== *)
(** * Part II. Properties                                                  *)
(* ===================================================================== *)

(** ** Stripping and slicing *)

Section StripLemmas.

Variable P : char -> bool.

Lemma lstrip_by_suffix (s : str) : lstrip_by P s `suffix_of` s.
Proof.
induction s as [|c s IH]; simpl; [done|].
destruct (P c); [by apply suffix_cons_r | done].
Qed.

Lemma lstrip_by_head (s : str) (c : char) :
  head (lstrip_by P s) = Some c -> P c = false.
Proof.
induction s as [|x s IH]; simpl; [done|].
destruct (P x) eqn:Hx; [done|]. simpl. by intros [= <-].
Qed.

Lemma rstrip_by_prefix (s : str) : rstrip_by P s `prefix_of` s.
Proof.
unfold rstrip_by.
destruct (lstrip_by_suffix (reverse s)) as [k Hk].
exists (reverse k).
rewrite <- reverse_app, <- Hk. by rewrite reverse_involutive.
Qed.

Lemma rstrip_by_last (s : str) (c : char) :
  last (rstrip_by P s) = Some c -> P c = false.
Proof.
unfold rstrip_by. rewrite last_reverse. apply lstrip_by_head.
Qed.

End StripLemmas.

Lemma slice_to_prefix (n : Z) (s : str) : slice_to n s `prefix_of` s.
Proof. unfold slice_to. destruct (0 <=? n); apply prefix_take. Qed.

Lemma slice_to_length (n : Z) (s : str) :
  0 <= n -> Z.of_nat (length (slice_to n s)) <= n.
Proof.
intros Hn. unfold slice_to.
destruct (Z.leb_spec 0 n); [|lia]. rewrite length_take. lia.
Qed.

Lemma prefix_head_nonempty (l1 l2 : str) :
  l1 `prefix_of` l2 -> l1 <> [] -> head l1 = head l2.
Proof. intros [k ->] Hne. by destruct l1. Qed.

Lemma prefix_elem_of (l1 l2 : str) (c : char) :
  l1 `prefix_of` l2 -> c ∈ l1 -> c ∈ l2.
Proof. intros [k ->] Hc. apply elem_of_app. by left. Qed.

Lemma mem_true_iff (c : char) (cs : str) : mem c cs = true <-> c ∈ cs.
Proof.
unfold mem. rewrite existsb_exists. split.
- intros (x & Hx & Heq). apply N.eqb_eq in Heq as ->.
  by apply list_elem_of_In.
- intros Hc. exists c. split; [by apply list_elem_of_In | apply N.eqb_refl].
Qed.

(** ** The sanitiser *)

Module SanitizeProps.
Import PathUtils.

(** The stages of [sanitize_for_filesystem]. *)
Definition stage2 (s : str) : str := replace_invalid (strip s).
Definition stage3 (s : str) : str := rstrip [dot; space] (stage2 s).
Definition stage4 (s : str) (n : Z) : str :=
if len (stage3 s) >? n
then rstrip [underscore; dot; space] (slice_to n (stage3 s))
else stage3 s.

Lemma sanitize_stages (s : str) (n : Z) :
  sanitize_for_filesystem s n =
  match stage4 s n with [] => [underscore] | _ => stage4 s n end.
Proof. reflexivity. Qed.

Lemma stage4_prefix (s : str) (n : Z) : stage4 s n `prefix_of` stage2 s.
Proof.
unfold stage4, stage3, rstrip.
destruct (_ >? _).
- etrans; [apply rstrip_by_prefix|].
  etrans; [apply slice_to_prefix|]. apply rstrip_by_prefix.
- apply rstrip_by_prefix.
Qed.

Lemma stage2_valid (s : str) (c : char) :
  c ∈ stage2 s -> c ∉ invalid_chars.
Proof.
unfold stage2, replace_invalid. intros Hc.
apply list_elem_of_fmap in Hc as (x & -> & _).
destruct (mem x invalid_chars) eqn:Hm.
- intros Hin. apply mem_true_iff in Hin. discriminate Hin.
- intros Hin. apply mem_true_iff in Hin. congruence.
Qed.

Lemma replaced_char_not_space (x : char) :
  is_space x = false ->
  is_space (if mem x invalid_chars then underscore else x) = false.
Proof. intros Hx. destruct (mem x invalid_chars); [reflexivity | exact Hx]. Qed.

Lemma stage2_head (s : str) (c : char) :
  head (stage2 s) = Some c -> is_space c = false.
Proof.
unfold stage2, replace_invalid, strip.
set (u := lstrip_by is_space s).
destruct (rstrip_by is_space u) as [|x v] eqn:Hv; [done|].
rewrite fmap_cons. intros Hh. injection Hh as <-.
assert (Hx : is_space x = false).
{ apply (lstrip_by_head is_space s). fold u.
  rewrite <- (prefix_head_nonempty (x :: v) u); [done| |done].
  rewrite <- Hv. apply rstrip_by_prefix. }
by apply replaced_char_not_space.
Qed.

Lemma stage4_last (s : str) (n : Z) (c : char) :
  last (stage4 s n) = Some c -> c <> dot /\ c <> space.
Proof.
unfold stage4, stage3, rstrip. intros Hl.
assert (Hm : mem c [dot; space] = false).
{ destruct (_ >? _).
  - apply rstrip_by_last in Hl. simpl in Hl. unfold mem in *. simpl in *.
    destruct (c =? underscore)%N; [done|]. done.
  - by apply rstrip_by_last in Hl. }
unfold mem in Hm. simpl in Hm.
apply orb_false_elim in Hm as [H1 H2].
apply orb_false_elim in H2 as [H2 _].
apply N.eqb_neq in H1, H2. done.
Qed.

Lemma stage4_length (s : str) (n : Z) :
  0 <= n -> len (stage4 s n) <= n.
Proof.
intros Hn. unfold stage4.
destruct (Z.gtb_spec (len (stage3 s)) n) as [Hgt|Hle]; [|done].
unfold len, rstrip.
pose proof (prefix_length _ _ (rstrip_by_prefix
  (fun c => mem c [underscore; dot; space]) (slice_to n (stage3 s)))).
pose proof (slice_to_length n (stage3 s) Hn). lia.
Qed.

End SanitizeProps.

Module SanitizeClaims.
Import PathUtils SanitizeProps.

(** The sanitiser property in its unrestricted form: length at most [n],
    no invalid character, no whitespace or dot at either end, and the
    placeholder for the empty string. *)
Definition sanitize_unrestricted (s : str) (n : Z) : Prop :=
let r := sanitize_for_filesystem s n in
len r <= n /\
(forall c, c ∈ r -> c ∉ invalid_chars) /\
(forall c, head r = Some c -> is_space c = false /\ c <> dot) /\
(forall c, last r = Some c -> is_space c = false /\ c <> dot) /\
sanitize_for_filesystem [] n = [underscore].

Example sanitize_docstring_1 :
  sanitize_for_filesystem (py "My File: Test.txt") 255 = py "My File_ Test.txt".
Proof. reflexivity. Qed.

Example sanitize_docstring_2 :
  sanitize_for_filesystem (py "  spaces  ") 255 = py "spaces".
Proof. reflexivity. Qed.

Example sanitize_invalid_characters :
  sanitize_for_filesystem
    (py "File:With*Invalid?Chars<>|" ++ [34%N]) 255
  = py "File_With_Invalid_Chars____".
Proof. reflexivity. Qed.

Example sanitize_negative_bound :
  sanitize_for_filesystem (py "abcdef") (-2) = py "abcd".
Proof. reflexivity. Qed.

Lemma sanitize_empty (n : Z) : sanitize_for_filesystem [] n = [underscore].
Proof.
unfold sanitize_for_filesystem.
change (rstrip [dot; space] (replace_invalid (strip []))) with (@nil char).
destruct (len [] >? n); [|reflexivity].
unfold slice_to. destruct (0 <=? n); rewrite take_nil; reflexivity.
Qed.

(** C1, as stated, fails: with bound 0 the placeholder is longer than the
    bound; a leading dot is kept; a tab before a stripped trailing dot is
    left at the end. *)
Lemma sanitize_unrestricted_fails :
  ~ sanitize_unrestricted [] 0 /\
  ~ sanitize_unrestricted (py ".a") 255 /\
  ~ sanitize_unrestricted [97%N; 9%N; 46%N] 255.
Proof.
split; [|split].
- intros (Hlen & _). vm_compute in Hlen. by apply Hlen.
- intros (_ & _ & Hhead & _).
  destruct (Hhead 46%N eq_refl) as [_ Hdot]. by apply Hdot.
- intros (_ & _ & _ & Hlast & _).
  destruct (Hlast 9%N eq_refl) as [Hsp _]. discriminate Hsp.
Qed.

(** C1, amended: for every string [s] and bound [n], the result of
    [sanitize_for_filesystem s n] has length at most [n] whenever [n >= 1],
    contains none of the nine invalid characters, does not start with
    whitespace, does not end with a space or a dot, and the empty string
    is sanitised to the placeholder ["_"]. *)
Theorem sanitize_for_filesystem_safe (s : str) (n : Z) :
  let r := sanitize_for_filesystem s n in
  (1 <= n -> len r <= n) /\
  (forall c, c ∈ r -> c ∉ invalid_chars) /\
  (forall c, head r = Some c -> is_space c = false) /\
  (forall c, last r = Some c -> c <> dot /\ c <> space) /\
  sanitize_for_filesystem [] n = [underscore].
Proof.
cbn zeta. rewrite sanitize_stages.
pose proof (stage4_prefix s n) as Hpre.
pose proof (stage4_length s n) as Hlen.
pose proof (stage4_last s n) as Hlast.
destruct (stage4 s n) as [|x v] eqn:Hv.
- repeat split.
  + intros Hn. unfold len. simpl. lia.
  + intros c Hc. apply list_elem_of_singleton in Hc as ->.
    intros Hin. apply mem_true_iff in Hin. discriminate Hin.
  + intros c [= <-]. reflexivity.
  + injection H as <-. discriminate.
  + injection H as <-. discriminate.
  + apply sanitize_empty.
- repeat split.
  + intros Hn. apply Hlen. lia.
  + intros c Hc. apply (stage2_valid s).
    by apply (prefix_elem_of (x :: v)).
  + intros c Hc. apply (stage2_head s).
    rewrite <- (prefix_head_nonempty (x :: v)); done.
  + by apply Hlast.
  + by apply Hlast.
  + apply sanitize_empty.
Qed.

Lemma sanitize_for_filesystem_safe_witness :
  len (sanitize_for_filesystem (py " a:b/c. ") 3) <= 3.
Proof.
apply (proj1 (sanitize_for_filesystem_safe (py " a:b/c. ") 3)). lia.
Defined.

(** C10: [sanitize_for_fs] of main.py and [sanitize_for_filesystem] of
    storage/path_utils.py return the same string for every value and every
    bound. *)
Theorem sanitize_for_fs_eq (value : str) (max_length : Z) :
  Main.sanitize_for_fs value max_length
  = sanitize_for_filesystem value max_length.
Proof.
unfold Main.sanitize_for_fs, sanitize_for_filesystem.
cbv zeta.
change (py ". ") with [dot; space].
change (py "_. ") with [underscore; dot; space].
change (py "_") with [underscore].
fold invalid_chars. fold underscore.
change ((fun c : char => if mem c invalid_chars then underscore else c)
          <$> strip value) with (replace_invalid (strip value)).
destruct (if len _ >? max_length then _ else _) as [|x v]; reflexivity.
Qed.

End SanitizeClaims.

(** ** Filters *)

Module FilterProps.
Import Filters.

Section WithLower.

Variable lower : str -> str.

Lemma matches_composite (filters : list EmailFilter) (email : EmailMetadata) :
  matches lower (CompositeFilter filters) email
  = forallb (fun f => matches lower f email) filters.
Proof. reflexivity. Qed.

Lemma forallb_Permutation {A} (f : A -> bool) (l l' : list A) :
  l ≡ₚ l' -> forallb f l = forallb f l'.
Proof.
induction 1 as [|x l l' _ IH|x y l|l l' l'' _ IH1 _ IH2]; simpl.
- reflexivity.
- by rewrite IH.
- destruct (f x), (f y); reflexivity.
- by rewrite IH1.
Qed.

(** The sender filter built from [senders] accepts exactly the emails
    whose lowered sender is the lowering of an entry. *)
Lemma SenderFilter_matches_iff (senders : list str) (email : EmailMetadata) :
  matches lower (new_SenderFilter lower senders) email = true
  <-> exists s, s ∈ senders /\ lower (sender_email email) = lower s.
Proof.
unfold new_SenderFilter. simpl. rewrite bool_decide_eq_true.
rewrite list_elem_of_fmap. split.
- intros (s & Heq & Hin). eauto.
- intros (s & Hin & Heq). eauto.
Qed.

(** In main.py, with every other criterion absent, [message_matches]
    accepts when no sender is configured and otherwise accepts exactly on
    a case-insensitive match with an entry. *)
Lemma message_matches_sender_only (strptime_ymd : str -> outcome Z)
    (output : Path) (senders : option (list str)) (message : Message) :
  let args :=
    mkArgs output None None senders None None false false None None 200
           false false None (py "duplicates") (py "sha256") false false
           false 80 0 false in
  MainFilter.message_matches lower strptime_ymd message args = true
  <-> (truthy senders = false \/
       exists s, s ∈ default [] senders /\
         lower (or_else (SenderEmailAddress message) []) = lower s).
Proof.
cbn zeta. unfold MainFilter.message_matches. cbn.
destruct (truthy senders) eqn:Ht; cbn.
- destruct (existsb _ _) eqn:Hex; cbn.
  + split; [|done]. intros _. right.
    apply existsb_exists in Hex as (s & Hin & Heq).
    apply bool_decide_eq_true in Heq. exists s.
    split; [by apply list_elem_of_In | done].
  + split; [done|]. intros [Hf | (s & Hin & Heq)]; [done|].
    assert (existsb
      (fun s0 => bool_decide
         (lower (or_else (SenderEmailAddress message) []) = lower s0))
      (default [] senders) = true) as Hex'.
    { apply existsb_exists. exists s.
      split; [by apply list_elem_of_In | by apply bool_decide_eq_true]. }
    congruence.
- destruct (Attachments_Count message >? 0); cbn; split; auto.
Qed.

(** C2, at the failing input: a [SenderFilter] built from the empty list
    rejects every email. *)
Theorem SenderFilter_empty_list_rejects (email : EmailMetadata) :
  matches lower (new_SenderFilter lower []) email = false.
Proof. reflexivity. Qed.

(** C3: a composite of no filters matches every email; a composite
    matches exactly when each component matches; the order of the
    components does not matter. *)
Theorem CompositeFilter_is_conjunction
    (filters : list EmailFilter) (email : EmailMetadata) :
  matches lower (CompositeFilter []) email = true /\
  (matches lower (CompositeFilter filters) email = true
   <-> Forall (fun f => matches lower f email = true) filters) /\
  (forall filters', filters ≡ₚ filters' ->
     matches lower (CompositeFilter filters') email
     = matches lower (CompositeFilter filters) email).
Proof.
split; [reflexivity|]. split.
- rewrite matches_composite, forallb_forall, Forall_forall.
  split; intros H f Hf; apply H; by apply list_elem_of_In.
- intros filters' Hp. rewrite !matches_composite.
  symmetry. by apply forallb_Permutation.
Qed.

End WithLower.

Definition test_email (subject body sender : string) : EmailMetadata :=
mkEmail (py subject) (py sender) (py "Test Sender") 0 (Some 0) [] []
        (py body) [].

Example subject_keyword_scenario :
  let email := test_email "Quarterly Invoice"
                 "Please review the attached invoice" "a@x.com" in
  matches ascii_lower
    (new_SubjectKeywordFilter ascii_lower [py "invoice"]) email = true /\
  matches ascii_lower
    (new_SubjectKeywordFilter ascii_lower [py "refund"]) email = false.
Proof. split; reflexivity. Qed.

Example sender_case_insensitive :
  matches ascii_lower (new_SenderFilter ascii_lower [py "SENDER@EXAMPLE.COM"])
          (test_email "s" "b" "sender@example.com") = true.
Proof. reflexivity. Qed.

Example empty_sender_list_main_accepts :
  MainFilter.message_matches ascii_lower (fun _ => Ok 0)
    (mkMessage (Some (py "s")) (Some (py "a@x.com")) None 0 (py "2024-01-15")
               0 true)
    (default_args (mkPath [] [py "out"])) = true.
Proof. reflexivity. Qed.

Lemma CompositeFilter_is_conjunction_witness :
  let email := test_email "Monthly Invoice" "b" "sender@example.com" in
  let f1 := new_SenderFilter ascii_lower [py "sender@example.com"] in
  let f2 := new_SubjectKeywordFilter ascii_lower [py "invoice"] in
  matches ascii_lower (CompositeFilter [f2; f1]) email
  = matches ascii_lower (CompositeFilter [f1; f2]) email.
Proof.
cbv zeta.
apply (proj2 (proj2 (CompositeFilter_is_conjunction ascii_lower _ _))).
apply Permutation_swap.
Defined.

End FilterProps.

(** ** The folder path ladder *)

Module FolderPathProps.
Import FolderPath.

Section Builder.

Variable truediv : Path -> str -> Path.
Variable path_str : Path -> str.
Variable md5_hexdigest : str -> str.

Local Abbreviation too_long p := (200 < length (path_str p))%nat.
Local Abbreviation fits p := (length (path_str p) <= 200)%nat.

Lemma len_gtb_200 (p : Path) :
  (len (path_str p) >? 200) = bool_decide (too_long p).
Proof.
unfold len. destruct (Z.gtb_spec (Z.of_nat (length (path_str p))) 200);
  symmetry; [apply bool_decide_eq_true | apply bool_decide_eq_false]; lia.
Qed.

(** C4: [create_email_folder_path] returns
    base/sanitize(sender,120)/sanitize(subject,max)/date when that path
    string has at most 200 characters; otherwise the first of the
    candidates (subject cut to 50; subj_ and eight digest characters of
    the unsanitised subject) that has at most 200 characters; otherwise
    the flat segment sanitize(sender_date,100) under the base.  A rung is
    taken only when every earlier rung is longer than 200 characters. *)
Theorem create_email_folder_path_ladder
    (base_dir : Path) (sender_email subject date_str : str) (sml : Z) :
  let r0 := rung0 truediv base_dir sender_email subject date_str sml in
  let r1 := rung1 truediv base_dir sender_email subject date_str in
  let r2 := rung2 truediv md5_hexdigest base_dir sender_email subject date_str in
  let r3 := rung3 truediv base_dir sender_email date_str in
  let result :=
    create_email_folder_path truediv path_str md5_hexdigest base_dir
      sender_email subject date_str sml in
  result = first_fitting path_str [r0; r1; r2] r3 /\
  ((fits r0 /\ result = r0) \/
   (too_long r0 /\ fits r1 /\ result = r1) \/
   (too_long r0 /\ too_long r1 /\ fits r2 /\ result = r2) \/
   (too_long r0 /\ too_long r1 /\ too_long r2 /\ result = r3)).
Proof.
cbv zeta.
unfold create_email_folder_path, rung0, rung1, rung2, rung3.
change (slice_to 8 (md5_hexdigest subject))
  with (take 8 (md5_hexdigest subject)).
cbn [first_fitting].
rewrite !len_gtb_200.
repeat (case_bool_decide; case_decide; try lia).
- split; [done|]. do 3 right. done.
- split; [done|]. do 2 right. left. repeat split; (done || lia).
- split; [done|]. right. left. repeat split; (done || lia).
- split; [done|]. left. done.
Qed.

End Builder.

(** A rendering of paths with plain components, to run the ladder. *)
Definition slash_str (p : Path) : str :=
anchor p ++ concat (fmap (fun c => c ++ py "/") (removelast (tail p)))
         ++ name p.

Definition fixed_digest (_ : str) : str := py "0123456789abcdef0123456789abcdef".

Example folder_basic :
  create_email_folder_path child slash_str fixed_digest
    (mkPath (py "/") [py "tmp"; py "exports"])
    (py "sender@example.com") (py "Test Email") (py "2024-01-15") 80
  = mkPath (py "/")
      [py "tmp"; py "exports"; py "sender@example.com"; py "Test Email";
       py "2024-01-15"].
Proof. vm_compute. reflexivity. Qed.

Example folder_weird_sender_long_subject :
  create_email_folder_path child slash_str fixed_digest
    (mkPath (py "/") [py "base"])
    (py "weird:name") (replicate 300 65%N) (py "2024-01-15") 80
  = mkPath (py "/")
      [py "base"; py "weird_name"; replicate 80 65%N; py "2024-01-15"].
Proof. vm_compute. reflexivity. Qed.

Example folder_hash_rung :
  create_email_folder_path child slash_str fixed_digest
    (mkPath (py "/") [replicate 130 98%N])
    (py "a@x.com") (replicate 300 65%N) (py "2024-01-15") 80
  = mkPath (py "/")
      [replicate 130 98%N; py "a@x.com"; py "subj_01234567"; py "2024-01-15"].
Proof. vm_compute. reflexivity. Qed.

End FolderPathProps.

(** ** The duplicate tracker *)

Module DuplicatesProps.
Import Duplicates.

(** [sum(len(paths) for paths in seen_hashes.values())] *)
Definition total (m : gmap str (list Path)) : Z :=
map_fold (fun _ paths acc => Z.of_nat (length paths) + acc) 0 m.

Lemma total_empty : total ∅ = 0.
Proof. apply map_fold_empty. Qed.

Lemma total_insert_None (m : gmap str (list Path)) (h : str) (l : list Path) :
  m !! h = None -> total (<[h := l]> m) = Z.of_nat (length l) + total m.
Proof.
intros Hm. unfold total.
rewrite map_fold_insert_L; [done| |done]. intros; lia.
Qed.

Lemma total_insert_Some (m : gmap str (list Path)) (h : str)
    (l0 l : list Path) :
  m !! h = Some l0 ->
  total (<[h := l]> m)
  = total m - Z.of_nat (length l0) + Z.of_nat (length l).
Proof.
intros Hm.
rewrite <- (insert_delete_eq m h l).
rewrite total_insert_None by apply lookup_delete_eq.
rewrite <- (insert_delete_id m h l0 Hm) at 2.
rewrite total_insert_None by apply lookup_delete_eq. lia.
Qed.

Lemma register_file_seen (t : DuplicateTracker) (p : Path) (h : str) :
  seen_hashes (register_file t p h)
  = <[h := default [] (seen_hashes t !! h) ++ [p]]> (seen_hashes t).
Proof.
unfold register_file, is_duplicate. simpl.
destruct (seen_hashes t !! h) as [l|] eqn:Hl.
- rewrite bool_decide_eq_true_2 by eauto. simpl. by rewrite Hl.
- rewrite bool_decide_eq_false_2 by (intros [? ?]; done). simpl.
  rewrite lookup_insert_eq. simpl. by rewrite insert_insert_eq.
Qed.

Lemma register_file_total (t : DuplicateTracker) (p : Path) (h : str) :
  total (seen_hashes (register_file t p h)) = total (seen_hashes t) + 1.
Proof.
rewrite register_file_seen.
destruct (seen_hashes t !! h) as [l|] eqn:Hl; simpl.
- rewrite (total_insert_Some _ _ l) by done. rewrite length_app. simpl. lia.
- rewrite total_insert_None by done. simpl. lia.
Qed.

Lemma register_file_dom (t : DuplicateTracker) (p : Path) (h : str) :
  dom (seen_hashes (register_file t p h)) = {[h]} ∪ dom (seen_hashes t).
Proof. rewrite register_file_seen. apply dom_insert_L. Qed.

Lemma registered_snoc_register (calls : list call) (p : Path) (h : str) :
  registered (calls ++ [Register p h]) = registered calls ++ [(h, p)].
Proof. unfold registered. by rewrite foldl_app. Qed.

Lemma registered_snoc_clear (calls : list call) :
  registered (calls ++ [Clear]) = [].
Proof. unfold registered. by rewrite foldl_app. Qed.

Lemma run_snoc (t : DuplicateTracker) (calls : list call) (c : call) :
  run t (calls ++ [c]) = step (run t calls) c.
Proof. unfold run. by rewrite foldl_app. Qed.

(** What the map holds after any sequence of calls on a fresh tracker. *)
Lemma run_invariant (algorithm : str) (calls : list call) :
  let t := run (mkTracker algorithm ∅) calls in
  dom (seen_hashes t) = list_to_set (registered calls).*1 /\
  total (seen_hashes t) = Z.of_nat (length (registered calls)).
Proof.
induction calls as [|c calls IH] using rev_ind; cbn zeta.
- split; [apply dom_empty_L | apply total_empty].
- destruct IH as [IHd IHt]. rewrite run_snoc.
  destruct c as [p h|]; cbn [step].
  + rewrite registered_snoc_register, register_file_dom, register_file_total.
    rewrite IHd, IHt, fmap_app, list_to_set_app_L, length_app.
    split; [|simpl; lia].
    cbn [fmap list_fmap fst list_to_set].
    rewrite (right_id_L ∅ (∪)). apply (comm_L (∪)).
  + rewrite registered_snoc_clear. unfold clear. simpl.
    split; [apply dom_empty_L | apply total_empty].
Qed.

Lemma size_list_to_set_remove_dups (l : list str) :
  size (list_to_set l : gset str) = length (remove_dups l).
Proof.
rewrite <- (size_list_to_set (C := gset str) (remove_dups l))
  by apply NoDup_remove_dups.
f_equal. apply set_eq. intros x.
by rewrite !elem_of_list_to_set, elem_of_remove_dups.
Qed.

(** C5: in a fresh tracker, after registering hash [H] with path [P1],
    [is_duplicate H] holds; after registering [H] again with [P2] the
    statistics report one duplicate; and after any sequence of calls the
    statistics give the number of distinct registered hashes, the number
    of registered paths, and their difference. *)
Theorem tracker_statistics (algorithm : str) (H : str) (P1 P2 : Path)
    (calls : list call) :
  let fresh := mkTracker algorithm ∅ in
  is_duplicate (register_file fresh P1 H) H = true /\
  duplicate_files
    (get_statistics (register_file (register_file fresh P1 H) P2 H)) = 1 /\
  (let stats := get_statistics (run fresh calls) in
   unique_files stats
   = Z.of_nat (length (remove_dups (registered calls).*1)) /\
   total_files stats = Z.of_nat (length (registered calls)) /\
   duplicate_files stats = total_files stats - unique_files stats).
Proof.
cbv zeta. split; [|split].
- unfold is_duplicate. rewrite register_file_seen, lookup_insert_eq.
  apply bool_decide_eq_true. eauto.
- pose proof (run_invariant algorithm [Register P1 H; Register P2 H])
    as [Hd Ht].
  unfold get_statistics. cbn [duplicate_files].
  fold (total (seen_hashes
    (register_file (register_file (mkTracker algorithm ∅) P1 H) P2 H))).
  change (register_file (register_file (mkTracker algorithm ∅) P1 H) P2 H)
    with (run (mkTracker algorithm ∅) [Register P1 H; Register P2 H]).
  rewrite Ht. rewrite <- size_dom, Hd.
  change ((registered [Register P1 H; Register P2 H]).*1) with [H; H].
  cbn [list_to_set].
  rewrite (right_id_L ∅ (∪)), (idemp_L (∪)), size_singleton.
  reflexivity.
- pose proof (run_invariant algorithm calls) as [Hd Ht].
  unfold get_statistics. cbn [unique_files total_files duplicate_files].
  fold (total (seen_hashes (run (mkTracker algorithm ∅) calls))).
  rewrite Ht. rewrite <- size_dom, Hd, size_list_to_set_remove_dups.
  done.
Qed.

Example tracker_two_hashes :
  let a := mkPath [] [py "a.txt"] in
  let t := run (mkTracker (py "sha256") ∅)
             [Register a (py "h1"); Register a (py "h2");
              Register a (py "h1"); Register a (py "h1")] in
  get_statistics t = mkStats 2 4 2.
Proof. vm_compute. reflexivity. Qed.

End DuplicatesProps.

(** ** The unique path *)

Module UniquePathProps.
Import UniquePath.

Lemma digits_of_uint_inj (d d' : Decimal.uint) :
  digits_of_uint d = digits_of_uint d' -> d = d'.
Proof.
revert d'. induction d; intros d'; destruct d'; simpl; intros Heq;
  try discriminate Heq; try reflexivity;
  injection Heq as Heq; f_equal; by apply IHd.
Qed.

Lemma decimal_inj (j k : nat) : decimal j = decimal k -> j = k.
Proof.
unfold decimal. intros Heq.
apply DecimalNat.Unsigned.to_uint_inj. by apply digits_of_uint_inj.
Qed.

(** The new name of the k-th candidate. *)
Definition numbered_name (p : Path) (k : nat) : str :=
stem p ++ py "_" ++ decimal k ++ suffix p.

Lemma numbered_name_valid (p : Path) (k : nat) :
  ~ (numbered_name p k = [] \/ numbered_name p k = [46%N]).
Proof.
assert (Hin : 95%N ∈ numbered_name p k).
{ unfold numbered_name. apply elem_of_app. right.
  apply elem_of_app. left. by apply list_elem_of_singleton. }
intros [Heq | Heq]; rewrite Heq in Hin.
- by apply not_elem_of_nil in Hin.
- apply list_elem_of_singleton in Hin. discriminate Hin.
Qed.

Lemma numbered_ok (p : Path) (k : nat) :
  name p <> [] -> numbered p (S k) = Ok (candidate p (S k)).
Proof.
intros Hname. unfold numbered, with_name.
rewrite decide_False by done.
fold (numbered_name p (S k)).
rewrite decide_False by apply numbered_name_valid.
reflexivity.
Qed.


Lemma candidate_inj (p : Path) (j k : nat) :
  candidate p (S j) = candidate p (S k) -> j = k.
Proof.
unfold candidate. intros Heq. injection Heq as Heq.
apply app_inj_tail in Heq as [_ Heq].
apply app_inv_head in Heq. injection Heq as Heq.
apply app_inv_tail in Heq. apply decimal_inj in Heq. lia.
Qed.

(** A finite file system cannot hold all of the first [size fs + 1]
    numbered candidates. *)
Lemma some_candidate_free (fs : gset Path) (p : Path) :
  exists k, (k <= size fs)%nat /\ candidate p (S k) ∉ fs.
Proof.
destruct (decide (Forall (fun k => candidate p (S k) ∈ fs)
                         (seq 0 (S (size fs))))) as [Hall|Hex].
- exfalso.
  set (l := (fun k => candidate p (S k)) <$> seq 0 (S (size fs))).
  assert (Hnd : NoDup l).
  { apply NoDup_fmap_2_strong; [|apply NoDup_seq].
    intros j k _ _ Heq. by apply candidate_inj in Heq. }
  assert (Hsub : (list_to_set l : gset Path) ⊆ fs).
  { intros x Hx. apply elem_of_list_to_set in Hx.
    apply list_elem_of_fmap in Hx as (k & -> & Hk).
    rewrite Forall_forall in Hall. by apply Hall. }
  apply subseteq_size in Hsub.
  rewrite size_list_to_set in Hsub by done.
  unfold l in Hsub. rewrite length_fmap, length_seq in Hsub. lia.
- apply not_Forall_Exists in Hex; [|intros k; apply _].
  apply Exists_exists in Hex as (k & Hk & Hfree).
  apply elem_of_seq in Hk. exists k. split; [lia | done].
Qed.

(** The least index of a candidate that does not exist. *)
Lemma least_candidate_free (fs : gset Path) (p : Path) (n : nat) :
  candidate p n ∉ fs ->
  exists k, (k <= n)%nat /\ (candidate p k ∉ fs) /\
            (forall j, (j < k)%nat -> candidate p j ∈ fs).
Proof.
induction n as [n IH] using lt_wf_ind. intros Hfree.
destruct (decide (Forall (fun j => candidate p j ∈ fs) (seq 0 n)))
  as [Hall|Hex].
- exists n. split; [lia|]. split; [done|].
  intros j Hj. rewrite Forall_forall in Hall. apply Hall.
  apply elem_of_seq. lia.
- apply not_Forall_Exists in Hex; [|intros k; apply _].
  apply Exists_exists in Hex as (m & Hm & Hmfree).
  apply elem_of_seq in Hm.
  destruct (IH m ltac:(lia) Hmfree) as (k & Hk & Hkfree & Hbelow).
  exists k. split; [lia | done].
Qed.

Lemma exists_true (fs : gset Path) (p : Path) :
  p ∈ fs -> exists_ fs p = true.
Proof. intros. by apply bool_decide_eq_true. Qed.

Lemma exists_false (fs : gset Path) (p : Path) :
  p ∉ fs -> exists_ fs p = false.
Proof. intros. by apply bool_decide_eq_false. Qed.

(** The loop started at [counter] stops at the first free candidate from
    there on, given fuel for the steps in between. *)
Lemma unique_loop_first_free (fs : gset Path) (p : Path) (fuel : nat) :
  name p <> [] ->
  forall counter k,
    (counter <= k)%nat -> (k - counter < fuel)%nat ->
    candidate p (S k) ∉ fs ->
    (forall j, (counter <= j < k)%nat -> candidate p (S j) ∈ fs) ->
    unique_loop fuel fs p (S counter) = Some (Ok (candidate p (S k))).
Proof.
intros Hname. induction fuel as [|fuel IH]; intros counter k Hle Hfuel Hfree Hbelow.
- lia.
- cbn [unique_loop]. rewrite numbered_ok by done.
  destruct (decide (counter = k)) as [->|Hne].
  + by rewrite exists_false.
  + rewrite exists_true by (apply Hbelow; lia). cbn [negb].
    apply IH; [lia | lia | done |]. intros j Hj. apply Hbelow. lia.
Qed.

(** Fuel for one step more than the file system has entries is enough. *)
Lemma ensure_unique_path_fuel_enough (fs : gset Path) (p : Path) :
  name p <> [] ->
  exists q, ensure_unique_path (S (size fs)) fs p = Some (Ok q).
Proof.
intros Hname.
destruct (some_candidate_free fs p) as (n & Hn & Hfree).
destruct (least_candidate_free fs p (S n) Hfree) as (k & Hk & Hkfree & Hbelow).
exists (candidate p k). unfold ensure_unique_path.
destruct k as [|k].
- by rewrite exists_false.
- rewrite exists_true by (apply (Hbelow O); lia). cbn [negb].
  apply unique_loop_first_free; [done | lia | lia | done |].
  intros j Hj. apply Hbelow. lia.
Qed.





Definition report : Path := mkPath (py "/") [py "out"; py "test.txt"].

Example candidate_test_3 :
  candidate report 3 = mkPath (py "/") [py "out"; py "test_3.txt"].
Proof. reflexivity. Qed.

Example candidate_two_dots :
  candidate (mkPath [] [py "f.tar.gz"]) 12 = mkPath [] [py "f.tar_12.gz"].
Proof. reflexivity. Qed.

Example candidate_dotfile :
  candidate (mkPath [] [py ".bashrc"]) 1 = mkPath [] [py ".bashrc_1"].
Proof. reflexivity. Qed.


End UniquePathProps.

(** ** Dry run *)

Module DryRunProps.
Import MainExport.

Definition out : Path := mkPath [] [py "out"].

Definition report_message : Message :=
mkMessage (Some (py "Report")) (Some (py "a@x.com")) None 0 (py "2024-01-15")
          0 true.

(** [-o out --dry-run --export-mail] *)
Definition dry_run_args : Args :=
mkArgs out None None None None None false false None None 200 true false
       None (py "duplicates") (py "sha256") false true false 80 0 false.

(** The world after [setup_logging] with these arguments, on an empty
    file system. *)
Definition logging_world : World := mkWorld empty_fs INFO [] true.

Definition report_dir : Path :=
mkPath [] [py "out"; py "a@x.com"; py "Report"; py "2024-01-15"].

Definition report_msg : Path :=
mkPath [] [py "out"; py "a@x.com"; py "Report"; py "2024-01-15";
           py "Report.msg"].

Lemma setup_logging_dry_run_args :
  setup_logging dry_run_args (initial_world empty_fs)
  = (Ok tt, mkWorld empty_fs INFO [] false).
Proof. reflexivity. Qed.

(** In main.py the directory is made before the dry-run test, whatever
    the message: when [save_mail] returns a path, the target directory and
    its parents exist afterwards, dry run or not. *)
Lemma save_mail_makes_directory (base_dir : Path) (message : Message)
    (args : Args) (w w' : World) (r : option Path) :
  save_mail base_dir message args w = (Ok r, w') ->
  let subject :=
    Main.sanitize_for_fs (or_else (Subject message) [])
                         (subject_sanitize_length args) in
  let sender :=
    Main.sanitize_for_fs (or_else (SenderEmailAddress message) (py "unknown"))
                         120 in
  let target_dir :=
    child (child (child base_dir sender) subject) (ReceivedTime_ymd message) in
  forall d, d = target_dir \/ d ∈ parents target_dir -> d ∈ dirs (fs w').
Proof.
cbv zeta. unfold save_mail.
set (target_dir := child _ (ReceivedTime_ymd message)).
set (dest := child target_dir _).
unfold mkdir_parents.
destruct (bool_decide (target_dir ∈ files (fs w))); [discriminate|].
destruct (existsb _ _); [discriminate|].
set (fs1 := mkFS _ _).
assert (Hin : forall d, d = target_dir \/ d ∈ parents target_dir ->
                        d ∈ dirs fs1).
{ intros d [-> | Hd]; unfold fs1; cbn [dirs]; apply elem_of_union.
  - left. apply elem_of_union. right. by apply elem_of_singleton.
  - right. by apply elem_of_list_to_set. }
assert (Hlog : forall l t q w0, fs (logging_log l t q w0) = fs w0).
{ intros l t q w0. unfold logging_log. by destruct (_ <=? _). }
destruct (dry_run args).
- intros [= _ <-]. by rewrite Hlog.
- destruct (SaveAs_succeeds message).
  + cbn [fs set_fs]. unfold write_file.
    destruct (is_dir fs1 dest); [intros [= _ <-]; by rewrite Hlog|].
    destruct (negb _); intros [= _ <-]; by rewrite Hlog.
  + intros [= _ <-]. by rewrite Hlog.
Qed.

(** C7, at the failing input: [save_mail] in dry-run mode on an empty
    file system returns and logs the path it would write, and has created
    the directory [out/a@x.com/Report/2024-01-15] with its parents. *)
Theorem save_mail_dry_run_creates_directories :
  exists w',
    save_mail out report_message dry_run_args logging_world
    = (Ok (Some report_msg), w') /\
    log w' = [mkRecord INFO "[DRY-RUN] Would save email" (Some report_msg)] /\
    files (fs w') = ∅ /\
    (report_dir ∈ dirs (fs w')) /\
    (out ∈ dirs (fs w')) /\
    fs w' <> fs logging_world.
Proof.
eexists. split; [reflexivity|].
split; [reflexivity|]. split; [reflexivity|].
pose proof (save_mail_makes_directory out report_message dry_run_args
              logging_world _ (Some report_msg) eq_refl) as Hd.
cbv zeta in Hd.
assert (Hr : report_dir ∈ dirs (fs (snd
  (save_mail out report_message dry_run_args logging_world)))).
{ apply Hd. left. reflexivity. }
split; [exact Hr|]. split.
- apply Hd. right. apply list_elem_of_here.
- intros Heq. apply (not_elem_of_empty (C := gset Path) report_dir).
  change (∅ : gset Path) with (dirs (fs logging_world)).
  rewrite <- Heq. exact Hr.
Qed.

End DryRunProps.

(** ** The exporters of the package *)

Module ExporterProps.
Import Exporters.

Section WithPathlib.

Variable truediv : Path -> str -> Path.
Variable path_str : Path -> str.
Variable md5_hexdigest : str -> str.
Variable algorithms_available : list str.

(** The keyword [received_time] is not a parameter of
    [create_email_folder_path], so the call in [_create_base_folder]
    raises TypeError and leaves the world as it was. *)
Lemma create_base_folder_raises (config : ExportConfig)
    (email : EmailMetadata) (w : World) :
  _create_base_folder truediv path_str md5_hexdigest config email w
  = (Raise (TypeError "unexpected keyword argument received_time"), w).
Proof. reflexivity. Qed.

(** The keyword [algorithm] is not a parameter of [DuplicateTracker]. *)
Lemma AttachmentExporter_init_raises (config : ExportConfig) :
  AttachmentExporter_init algorithms_available config
  = Raise (TypeError "unexpected keyword argument algorithm").
Proof. reflexivity. Qed.

(** [ExportResult] has no attribute [files_exported]. *)
Lemma files_exported_missing (result : ExportResult) :
  getattr_result result "files_exported" = Raise (AttributeError "files_exported").
Proof. reflexivity. Qed.

Lemma rfind_lookup (c : char) (s : str) (i : nat) :
  rfind c s = Some i -> s !! i = Some c.
Proof.
revert i. induction s as [|x s IH]; intros i; simpl; [done|].
destruct (rfind c s) as [j|].
- intros [= <-]. simpl. by apply IH.
- destruct (N.eqb_spec x c) as [->|]; [|done]. by intros [= <-].
Qed.

Lemma suffix_starts_with_dot (p : Path) :
  suffix p = [] \/ exists t, suffix p = 46%N :: t.
Proof.
unfold suffix. destruct (rfind 46%N (name p)) as [i|] eqn:Hi; [|by left].
destruct (_ && _); [|by left]. right.
apply rfind_lookup in Hi. exists (drop (S i) (name p)).
by apply drop_S.
Qed.

(** The temporary path [dest.with_suffix(dest.suffix + ".tmp")] exists
    for every path with a name. *)
Lemma with_suffix_tmp_ok (p : Path) :
  name p <> [] ->
  exists temp_path, with_suffix p (suffix p ++ py ".tmp") = Ok temp_path.
Proof.
intros Hname. unfold with_suffix.
destruct (suffix_starts_with_dot p) as [-> | (t & ->)].
- rewrite decide_False by done. cbn [negb andb app bool_decide].
  rewrite decide_False by done. eauto.
- rewrite decide_False by (destruct t; done).
  replace (negb (is_prefix [46%N] ((46%N :: t) ++ py ".tmp"))) with false
    by reflexivity.
  rewrite andb_false_r, decide_False by done. eauto.
Qed.

Lemma sanitize_nonempty (s : str) (n : Z) :
  PathUtils.sanitize_for_filesystem s n <> [].
Proof.
unfold PathUtils.sanitize_for_filesystem.
destruct (if len _ >? n then _ else _); discriminate.
Qed.

(** An attachment whose [SaveAsFile] fails is answered with [False] and a
    warning in the log; the method has no access to the result's error
    list. *)
Lemma save_attachment_failure_logged (self : AttachmentExporter)
    (attachment : ComAttachment) (folder : Path) (w : World) :
  Models.include_inline (config self) = true ->
  Models.dry_run (config self) = false ->
  SaveAsFile_succeeds attachment = false ->
  exists dest,
    _save_attachment self attachment folder w
    = (Ok false, logging_log WARNING "Failed to save attachment" (Some dest) w).
Proof.
intros Hinline Hdry Hsave. unfold _save_attachment.
rewrite Hinline, Hdry, Hsave. cbn [negb andb].
set (dest := child folder _). exists dest.
assert (Hname : name dest <> []).
{ unfold dest, child, name. cbn [tail]. rewrite last_snoc. cbn [default].
  apply sanitize_nonempty. }
destruct (with_suffix_tmp_ok dest Hname) as [temp_path ->].
reflexivity.
Qed.

(** [AttachmentExporter.export] raises on any instance, before the
    attachments are looked at. *)
Lemma AttachmentExporter_export_raises (self : AttachmentExporter)
    (email : EmailMetadata) (outlook_message : ComMessage)
    (result : ExportResult) (w : World) :
  AttachmentExporter_export truediv path_str md5_hexdigest self email
    outlook_message result w
  = (Raise (TypeError "unexpected keyword argument received_time"), w, result).
Proof.
unfold AttachmentExporter_export. by rewrite create_base_folder_raises.
Qed.

(** C8, at the failing input: [MessageExporter.export] and
    [AttachmentExporter.export] raise TypeError for every configuration,
    email and message, also when the client's save would succeed; no
    counter is incremented, nothing is added to the error list or the
    log, and the exception leaves [export]. *)
Theorem export_raises_TypeError (config : ExportConfig)
    (email : EmailMetadata) (outlook_message : ComMessage)
    (result : ExportResult) (w : World) :
  MessageExporter_export truediv path_str md5_hexdigest config email
    outlook_message result w
  = (Raise (TypeError "unexpected keyword argument received_time"), w, result)
  /\
  forall self : AttachmentExporter,
    AttachmentExporter_export truediv path_str md5_hexdigest self email
      outlook_message result w
    = (Raise (TypeError "unexpected keyword argument received_time"), w,
       result).
Proof.
split.
- unfold MessageExporter_export. by rewrite create_base_folder_raises.
- intros self. apply AttachmentExporter_export_raises.
Qed.

End WithPathlib.
End ExporterProps.

(** ** Conflicting switches *)

Module RunExportProps.
Import MainExport.

(** Both attachment switches, or both export modes. *)
Definition conflicting (args : Args) : bool :=
(with_attachments args && without_attachments args)
|| (export_mail args && export_markdown args).

(** The unrestricted form of the property: on a conflict the run answers
    2 and the file system is as before the call. *)
Definition aborts_without_writing
    (process_messages : Args -> World -> outcome Z * World)
    (startfile : Path -> World -> outcome unit * World)
    (args : Args) (w : World) : Prop :=
conflicting args = true ->
exists w', run_export process_messages startfile args w = (Ok 2, w')
           /\ fs w' = fs w.

Definition run_log : Path := mkPath [] [py "logs"; py "run.log"].

(** [-o out --with-attachments --without-attachments --log-file logs/run.log] *)
Definition conflict_args : Args :=
mkArgs (mkPath [] [py "out"]) None None None None None true true None None
       200 false false (Some run_log) (py "duplicates") (py "sha256") false
       false false 80 0 false.

(** C9, as stated, fails: with a log file configured, the log file and
    its directory are created before the conflict is detected. *)
Lemma run_export_conflict_creates_log_file :
  ~ aborts_without_writing (fun _ w => (Ok 0, w)) (fun _ w => (Ok tt, w))
      conflict_args (initial_world empty_fs).
Proof.
intros Hclaim. destruct (Hclaim eq_refl) as (w' & Hrun & Hfs).
assert (Hin : run_log ∈ files (fs (snd
  (run_export (fun _ w => (Ok 0, w)) (fun _ w => (Ok tt, w))
     conflict_args (initial_world empty_fs))))).
{ cbn. apply elem_of_union. right. by apply elem_of_singleton. }
rewrite Hrun in Hin. cbn [snd] in Hin. rewrite Hfs in Hin.
by apply not_elem_of_empty in Hin.
Qed.

Lemma setup_logging_level (args : Args) (w w1 : World) :
  setup_logging args w = (Ok tt, w1) ->
  level_no (log_level w1) <= 30 /\ log w1 = log w
  /\ com_initialized w1 = com_initialized w.
Proof.
unfold setup_logging.
assert (Hl : level_no (if quiet args then WARNING
                       else if verbose args >=? 2 then DEBUG
                       else if verbose args =? 1 then INFO else INFO) <= 30).
{ destruct (quiet args), (verbose args >=? 2), (verbose args =? 1);
    cbn; lia. }
destruct (log_file args) as [file|].
- destruct (mkdir_parents _ _); [|discriminate].
  destruct (write_file _ _); [|discriminate].
  intros [= <-]. done.
- intros [= <-]. done.
Qed.

Lemma setup_logging_no_log_file (args : Args) (w : World) :
  log_file args = None ->
  exists w1, setup_logging args w = (Ok tt, w1) /\ fs w1 = fs w.
Proof. intros Hnone. unfold setup_logging. rewrite Hnone. eauto. Qed.

Lemma logging_log_fs (l : level) (text : string) (p : option Path) (w : World) :
  fs (logging_log l text p w) = fs w
  /\ com_initialized (logging_log l text p w) = com_initialized w
  /\ log_level (logging_log l text p w) = log_level w.
Proof. unfold logging_log. by destruct (_ <=? _). Qed.

Lemma logging_error_recorded (text : string) (w : World) :
  level_no (log_level w) <= 30 ->
  log (logging_log ERROR text None w) = log w ++ [mkRecord ERROR text None].
Proof.
intros Hl. unfold logging_log.
destruct (Z.leb_spec (level_no (log_level w)) (level_no ERROR)) as [_|Hgt];
  [done|]. cbn in Hgt. lia.
Qed.

Section Run.

Variable process_messages : Args -> World -> outcome Z * World.
Variable startfile : Path -> World -> outcome unit * World.

(** C9, amended: when both attachment switches or both export modes are
    set and the logging set-up succeeds, [run_export] answers 2 and the
    last log record is the error naming the conflict (the attachment
    switches when both of them are set, the export modes otherwise),
    without initialising the client and whatever [process_messages]
    would do; the file system is the one the logging set-up left, which
    is the initial one when no log file is configured. *)
Theorem run_export_conflict_aborts (args : Args) (w : World) :
  conflicting args = true ->
  (forall w1, setup_logging args w = (Ok tt, w1) ->
     exists w',
       run_export process_messages startfile args w = (Ok 2, w') /\
       fs w' = fs w1 /\
       com_initialized w' = com_initialized w /\
       last (log w')
       = Some (mkRecord ERROR
                 (if with_attachments args && without_attachments args
                  then "Cannot specify both --with-attachments and --without-attachments"
                  else "Cannot specify both --export-mail and --export-markdown")
                 None) /\
       (forall process_messages' startfile',
          run_export process_messages' startfile' args w = (Ok 2, w'))) /\
  (log_file args = None ->
     exists w1, setup_logging args w = (Ok tt, w1) /\ fs w1 = fs w).
Proof.
intros Hconf. split; [|apply setup_logging_no_log_file].
intros w1 Hsetup.
destruct (setup_logging_level args w w1 Hsetup) as (Hl & _ & Hcom).
unfold run_export. rewrite Hsetup.
set (w2 := logging_log INFO "Starting Outlook attachments export" None w1).
destruct (logging_log_fs INFO "Starting Outlook attachments export" None w1)
  as (Hfs2 & Hcom2 & Hlvl2). fold w2 in Hfs2, Hcom2, Hlvl2.
assert (Hl2 : level_no (log_level w2) <= 30) by (by rewrite Hlvl2).
unfold conflicting in Hconf.
destruct (with_attachments args && without_attachments args) eqn:Hatt.
- eexists. split; [reflexivity|].
  destruct (logging_log_fs ERROR
    "Cannot specify both --with-attachments and --without-attachments"
    None w2) as (-> & -> & _).
  rewrite logging_error_recorded by done. rewrite last_snoc.
  repeat split; congruence.
- cbn [orb] in Hconf. rewrite Hconf.
  eexists. split; [reflexivity|].
  destruct (logging_log_fs ERROR
    "Cannot specify both --export-mail and --export-markdown"
    None w2) as (-> & -> & _).
  rewrite logging_error_recorded by done. rewrite last_snoc.
  repeat split; congruence.
Qed.

End Run.

Lemma run_export_conflict_aborts_witness :
  exists w',
    run_export (fun _ w => (Ok 7, w)) (fun _ w => (Ok tt, w))
      conflict_args (initial_world empty_fs) = (Ok 2, w') /\
    last (log w')
    = Some (mkRecord ERROR
              "Cannot specify both --with-attachments and --without-attachments"
              None).
Proof.
destruct (proj1 (run_export_conflict_aborts
                   (fun _ w => (Ok 7, w)) (fun _ w => (Ok tt, w))
                   conflict_args (initial_world empty_fs) eq_refl)
                _ eq_refl)
  as (w' & Hrun & _ & _ & Hlast & _).
exists w'. split; [exact Hrun | exact Hlast].
Defined.

End RunExportProps.

(* ===================================================================== *)
(** * Part III. Further properties of the modelled code                    *)
(* ===================================================================== *)

(** ** More on the sanitiser *)

Module SanitizeMore.
Import PathUtils SanitizeProps.

Lemma lstrip_by_id (P : char -> bool) (s : str) :
  (forall c, head s = Some c -> P c = false) -> lstrip_by P s = s.
Proof.
destruct s as [|x s]; [done|]. intros H. simpl. by rewrite (H x eq_refl).
Qed.

Lemma rstrip_by_id (P : char -> bool) (s : str) :
  (forall c, last s = Some c -> P c = false) -> rstrip_by P s = s.
Proof.
intros H. unfold rstrip_by. rewrite lstrip_by_id.
- apply reverse_involutive.
- intros c Hc. apply H. by rewrite <- head_reverse.
Qed.

Lemma replace_invalid_id (s : str) :
  (forall c, c ∈ s -> c ∉ invalid_chars) -> replace_invalid s = s.
Proof.
intros H. unfold replace_invalid.
induction s as [|x s IH]; [done|]. rewrite fmap_cons. f_equal.
- destruct (mem x invalid_chars) eqn:Hm; [|done].
  apply mem_true_iff in Hm. exfalso. apply (H x); [apply list_elem_of_here|done].
- apply IH. intros c Hc. apply H. by apply list_elem_of_further.
Qed.

(** A string that needs no cleaning: not empty, free of the nine invalid
    characters, no whitespace at either end and no dot at the end. *)
Definition clean (s : str) : Prop :=
s <> [] /\
(forall c, c ∈ s -> c ∉ invalid_chars) /\
(forall c, head s = Some c -> is_space c = false) /\
(forall c, last s = Some c -> is_space c = false /\ c <> dot).

Lemma not_dot_space (c : char) :
  is_space c = false -> c <> dot -> mem c [dot; space] = false.
Proof.
intros Hs Hd. unfold mem. cbn [existsb].
destruct (N.eqb_spec c dot) as [->|_]; [done|].
destruct (N.eqb_spec c space) as [->|_]; [discriminate Hs | done].
Qed.

(** X1: a clean string that fits the bound is returned unchanged. *)
Theorem sanitize_clean_unchanged (s : str) (n : Z) :
  clean s -> len s <= n -> sanitize_for_filesystem s n = s.
Proof.
intros (Hne & Hvalid & Hhead & Hlast) Hlen.
assert (H3 : stage3 s = s).
{ unfold stage3, stage2, strip.
  rewrite (lstrip_by_id is_space s Hhead).
  rewrite (rstrip_by_id is_space s) by (intros c Hc; by apply Hlast).
  rewrite (replace_invalid_id s Hvalid).
  apply rstrip_by_id. intros c Hc.
  destruct (Hlast c Hc). by apply not_dot_space. }
rewrite sanitize_stages. unfold stage4. rewrite H3.
destruct (Z.gtb_spec (len s) n); [lia|]. by destruct s.
Qed.

Lemma sanitize_clean_unchanged_witness :
  sanitize_for_filesystem (py "Normal File Name") 255 = py "Normal File Name".
Proof.
apply sanitize_clean_unchanged.
- split; [done|]. split; [|split].
  + intros c Hc Hin. apply mem_true_iff in Hin.
    assert (forallb (fun x => negb (mem x invalid_chars))
              (py "Normal File Name") = true) as Hall by reflexivity.
    rewrite forallb_forall in Hall. apply list_elem_of_In in Hc.
    specialize (Hall c Hc). by rewrite Hin in Hall.
  + by intros c [= <-].
  + intros c [= <-]. done.
- unfold len. simpl. lia.
Defined.

(** X2: the result is one usable path component: never empty, never
    [.] or [..], and free of both path separators. *)
Theorem sanitize_is_component (s : str) (n : Z) :
  let r := sanitize_for_filesystem s n in
  r <> [] /\ r <> [dot] /\ r <> [dot; dot] /\ (47%N ∉ r) /\ (92%N ∉ r).
Proof.
cbv zeta. rewrite sanitize_stages.
pose proof (stage4_prefix s n) as Hpre.
pose proof (stage4_last s n) as Hlast.
destruct (stage4 s n) as [|x v] eqn:Hv.
- repeat split; try discriminate;
    intros Hin; apply list_elem_of_singleton in Hin; discriminate Hin.
- assert (Hnd : forall t, x :: v = t ++ [dot] -> False).
  { intros t Ht. destruct (Hlast dot) as [Hd _]; [|done].
    rewrite Ht. apply last_snoc. }
  assert (Hval : forall c, c ∈ x :: v -> c ∉ invalid_chars).
  { intros c Hc. apply (stage2_valid s). by apply (prefix_elem_of (x :: v)). }
  repeat split.
  + discriminate.
  + intros Heq. by apply (Hnd []).
  + intros Heq. by apply (Hnd [dot]).
  + intros Hin. apply (Hval _ Hin). apply mem_true_iff. reflexivity.
  + intros Hin. apply (Hval _ Hin). apply mem_true_iff. reflexivity.
Qed.

(** X3: the sanitiser only cuts and replaces: its result is the
    placeholder or a prefix of the stripped input with the invalid
    characters replaced, so every character of the result is an
    underscore or a character of the input. *)
Theorem sanitize_only_cuts (s : str) (n : Z) :
  let r := sanitize_for_filesystem s n in
  (r = [underscore] \/ r `prefix_of` replace_invalid (strip s)) /\
  (forall c, c ∈ r -> c = underscore \/ c ∈ s).
Proof.
cbv zeta. rewrite sanitize_stages.
pose proof (stage4_prefix s n) as Hpre. unfold stage2 in Hpre.
destruct (stage4 s n) as [|x v] eqn:Hv.
- split; [by left|]. intros c Hc. left. by apply list_elem_of_singleton in Hc.
- split; [by right|]. intros c Hc.
  apply (prefix_elem_of _ _ _ Hpre) in Hc.
  unfold replace_invalid in Hc.
  apply list_elem_of_fmap in Hc as (y & -> & Hy).
  destruct (mem y invalid_chars); [by left|]. right.
  unfold strip in Hy.
  destruct (rstrip_by_prefix is_space (lstrip_by is_space s)) as [k Hk].
  destruct (lstrip_by_suffix is_space s) as [k' Hk'].
  rewrite Hk', Hk. apply elem_of_app. right. apply elem_of_app. by left.
Qed.

(** X4: sanitising twice with a bound of at least 1 changes nothing more,
    provided the first result does not end in whitespace. *)
Theorem sanitize_idempotent (s : str) (n : Z) :
  1 <= n ->
  (forall c, last (sanitize_for_filesystem s n) = Some c -> is_space c = false) ->
  sanitize_for_filesystem (sanitize_for_filesystem s n) n
  = sanitize_for_filesystem s n.
Proof.
intros Hn Hws. apply sanitize_clean_unchanged.
- destruct (sanitize_is_component s n) as (Hne & _).
  revert Hws. rewrite sanitize_stages.
  pose proof (stage4_prefix s n) as Hpre.
  pose proof (stage4_last s n) as Hlast.
  destruct (stage4 s n) as [|x v] eqn:Hv; intros Hws.
  + split; [done|]. split; [|split].
    * intros c Hc Hin. apply list_elem_of_singleton in Hc as ->.
      apply mem_true_iff in Hin. discriminate Hin.
    * by intros c [= <-].
    * intros c [= <-]. done.
  + split; [done|]. split; [|split].
    * intros c Hc. apply (stage2_valid s). by apply (prefix_elem_of (x :: v)).
    * intros c Hc. apply (stage2_head s).
      rewrite <- (prefix_head_nonempty (x :: v)); done.
    * intros c Hc. split; [by apply Hws | by apply Hlast].
- rewrite sanitize_stages.
  pose proof (stage4_length s n) as Hlen.
  destruct (stage4 s n) as [|x v]; [unfold len; simpl; lia | apply Hlen; lia].
Qed.

Lemma sanitize_idempotent_witness :
  sanitize_for_filesystem (sanitize_for_filesystem (py " Re: a/b. ") 5) 5
  = sanitize_for_filesystem (py " Re: a/b. ") 5.
Proof.
apply sanitize_idempotent; [lia|].
intros c Hc. vm_compute in Hc. by injection Hc as <-.
Defined.

Example sanitize_twice_differs :
  sanitize_for_filesystem [97%N; 9%N; 46%N] 255 = [97%N; 9%N] /\
  sanitize_for_filesystem [97%N; 9%N] 255 = [97%N].
Proof. split; reflexivity. Qed.

End SanitizeMore.

(** ** More on the filters *)

Module FilterMore.
Import Filters.

Lemma is_prefix_iff (p s : str) :
  is_prefix p s = true <-> exists post, s = p ++ post.
Proof.
revert s. induction p as [|a p IH]; intros s; simpl.
- split; [eauto | done].
- destruct s as [|b s].
  + split; [done | intros [post Hpost]; discriminate Hpost].
  + rewrite andb_true_iff, N.eqb_eq, IH. split.
    * intros [-> [post ->]]. eauto.
    * intros [post [= -> ->]]. eauto.
Qed.

(** [needle in haystack] holds exactly when the needle is a contiguous
    part of the haystack. *)
Lemma contains_iff (needle haystack : str) :
  contains needle haystack = true
  <-> exists pre post, haystack = pre ++ needle ++ post.
Proof.
induction haystack as [|b h IH].
- simpl. rewrite orb_false_r, is_prefix_iff. split.
  + intros [post Hpost]. exists [], post. done.
  + intros (pre & post & Heq). destruct pre; [|discriminate Heq].
    exists post. done.
- cbn [contains]. rewrite orb_true_iff, is_prefix_iff, IH. split.
  + intros [[post Hpost] | (pre & post & ->)].
    * exists [], post. done.
    * exists (b :: pre), post. done.
  + intros (pre & post & Heq). destruct pre as [|x pre].
    * left. exists post. done.
    * right. injection Heq as -> ->. eauto.
Qed.

Section WithLower.

Variable lower : str -> str.

(** X5: the date filter accepts exactly the emails received between its
    bounds, both inclusive; a missing bound does not constrain. *)
Theorem DateRangeFilter_inclusive (start_date end_date : option Z)
    (email : EmailMetadata) :
  matches lower (DateRangeFilter start_date end_date) email = true
  <-> (forall d, start_date = Some d -> d <= received_time email) /\
      (forall d, end_date = Some d -> received_time email <= d).
Proof.
cbn [matches].
destruct start_date as [s|], end_date as [e|];
  repeat match goal with
  | |- context [?a <? ?b] => destruct (Z.ltb_spec a b)
  | |- context [?a >? ?b] => destruct (Z.gtb_spec a b)
  end;
  split;
  try (intros _; split; intros d [= <-]; lia);
  try (intros _; split; intros d Hd; (discriminate Hd || (injection Hd as <-; lia)));
  try done;
  intros [H1 H2];
  try (specialize (H1 _ eq_refl)); try (specialize (H2 _ eq_refl)); lia.
Qed.

Lemma keyword_forallb (keywords : list str) (text : str) :
  forallb (fun kw => contains kw (lower text)) (lower <$> keywords) = true
  <-> forall kw, kw ∈ keywords ->
        exists pre post, lower text = pre ++ lower kw ++ post.
Proof.
rewrite forallb_forall. split.
- intros H kw Hkw. apply contains_iff. apply H.
  apply list_elem_of_In. apply list_elem_of_fmap. eauto.
- intros H kw Hkw. apply list_elem_of_In in Hkw.
  apply list_elem_of_fmap in Hkw as (k & -> & Hk).
  apply contains_iff. by apply H.
Qed.

(** X6: a subject (body) keyword filter accepts an email exactly when the
    lowering of every keyword is a contiguous part of the lowered subject
    (body); with no keywords it accepts every email. *)
Theorem keyword_filters_all_substrings (keywords : list str)
    (email : EmailMetadata) :
  (matches lower (new_SubjectKeywordFilter lower keywords) email = true
   <-> forall kw, kw ∈ keywords ->
         exists pre post, lower (subject email) = pre ++ lower kw ++ post) /\
  (matches lower (new_BodyKeywordFilter lower keywords) email = true
   <-> forall kw, kw ∈ keywords ->
         exists pre post, lower (body email) = pre ++ lower kw ++ post) /\
  matches lower (new_SubjectKeywordFilter lower []) email = true /\
  matches lower (new_BodyKeywordFilter lower []) email = true.
Proof.
split; [apply keyword_forallb|]. split; [apply keyword_forallb|].
split; reflexivity.
Qed.

(** Filters that accept every email. *)
Definition always_accepts (f : EmailFilter) : bool :=
match f with
| AttachmentPresenceFilter _ | PassThroughFilter => true
| _ => false
end.

(** X7: composites compose: a composite of one filter is that filter, a
    nested composite can be flattened, and the attachment-presence and
    pass-through filters can be left out of any composite without
    changing its answer. *)
Theorem CompositeFilter_laws (f : EmailFilter) (inner rest : list EmailFilter)
    (email : EmailMetadata) :
  matches lower (CompositeFilter [f]) email = matches lower f email /\
  matches lower (CompositeFilter (CompositeFilter inner :: rest)) email
  = matches lower (CompositeFilter (inner ++ rest)) email /\
  matches lower (CompositeFilter rest) email
  = matches lower
      (CompositeFilter (List.filter (fun g => negb (always_accepts g)) rest))
      email.
Proof.
split; [|split].
- cbn [matches forallb]. apply andb_true_r.
- cbn [matches forallb]. by rewrite forallb_app.
- cbn [matches]. induction rest as [|g rest IH]; [done|].
  cbn [forallb List.filter]. rewrite IH.
  destruct g; cbn [always_accepts negb forallb]; reflexivity.
Qed.

End WithLower.
End FilterMore.

(** ** main.py's filter against the package's filters *)

Module FilterAgreement.
Import Filters MainFilter.

Section WithLibrary.

Variable lower : str -> str.
Variable strptime_ymd : str -> outcome Z.

(** The package filters for the criteria of the command line: the date
    range, the sender filter when senders are given, and the two keyword
    filters. *)
Definition filters_of_args (start end_ : option Z) (args : Args)
    : list EmailFilter :=
[DateRangeFilter start end_]
++ (if truthy (sender args)
    then [new_SenderFilter lower (default [] (sender args))] else [])
++ [new_SubjectKeywordFilter lower (default [] (subject_keyword args));
    new_BodyKeywordFilter lower (default [] (body_keyword args))].

(** The two attachment switches of main.py on an attachment count. *)
Definition attachment_switches (args : Args) (count : Z) : bool :=
negb (with_attachments args && negb (count >? 0))
&& negb (without_attachments args && (count >? 0)).

Lemma sender_any_elem_of (senders : list str) (x : str) :
  existsb (fun s => bool_decide (lower x = lower s)) senders
  = bool_decide (lower x ∈ lower <$> senders).
Proof.
induction senders as [|s senders IH]; [done|].
cbn [existsb]. rewrite IH, fmap_cons.
destruct (decide (lower x = lower s)) as [Heq|Hne].
- rewrite (bool_decide_eq_true_2 _ Heq). symmetry.
  apply bool_decide_eq_true. rewrite Heq. apply list_elem_of_here.
- rewrite (bool_decide_eq_false_2 _ Hne). cbn [orb].
  apply bool_decide_ext. rewrite elem_of_cons. split; [by right | by intros [?|?]].
Qed.

Lemma keywords_guard (keywords : option (list str)) (text : str) :
  truthy keywords &&
  negb (forallb (fun kw => contains (lower kw) (lower text))
                (default [] keywords))
  = negb (forallb (fun kw => contains kw (lower text))
                  (lower <$> default [] keywords)).
Proof.
assert (Hmap : forall l : list str,
  forallb (fun kw => contains kw (lower text)) (lower <$> l)
  = forallb (fun kw => contains (lower kw) (lower text)) l).
{ induction l as [|k l IH]; [done|]. rewrite fmap_cons. cbn [forallb].
  by rewrite IH. }
rewrite Hmap. destruct keywords as [[|k l]|]; reflexivity.
Qed.

(** X8: on a message and the email holding its fields, [message_matches]
    of main.py answers as the composite of the package's filters for the
    same criteria, together with the two attachment switches. *)
Theorem message_matches_agrees (message : Message) (args : Args)
    (email : EmailMetadata) (start end_ : option Z) :
  parse_date strptime_ymd (start_date args) = Ok start ->
  parse_date strptime_ymd (end_date args) = Ok end_ ->
  received_time email = ReceivedTime message ->
  sender_email email = or_else (SenderEmailAddress message) [] ->
  subject email = or_else (Subject message) [] ->
  body email = or_else (Body message) [] ->
  message_matches lower strptime_ymd message args
  = matches lower (CompositeFilter (filters_of_args start end_ args)) email
    && attachment_switches args (Attachments_Count message).
Proof.
intros Hs He Hrecv Hsender Hsubject Hbody.
unfold message_matches. rewrite Hs, He.
unfold filters_of_args, attachment_switches.
rewrite FilterProps.matches_composite, !forallb_app.
cbn [forallb matches new_SubjectKeywordFilter new_BodyKeywordFilter].
rewrite Hrecv, Hsubject, Hbody, !keywords_guard.
destruct (match start with Some d => ReceivedTime message <? d
                      | None => false end); [reflexivity|].
destruct (match end_ with Some d => ReceivedTime message >? d
                     | None => false end); [reflexivity|].
cbn [andb].
assert (Hsend :
  truthy (sender args) &&
  negb (existsb (fun s => bool_decide
          (lower (or_else (SenderEmailAddress message) []) = lower s))
          (default [] (sender args)))
  = negb (forallb (fun f => matches lower f email)
            (if truthy (sender args)
             then [new_SenderFilter lower (default [] (sender args))]
             else []))).
{ destruct (truthy (sender args)); [|reflexivity].
  cbn [forallb matches new_SenderFilter andb].
  rewrite andb_true_r, Hsender. f_equal. apply sender_any_elem_of. }
rewrite Hsend.
destruct (forallb _ (if truthy (sender args) then _ else _)); [|reflexivity].
cbn [negb andb].
destruct (forallb _ (lower <$> default [] (subject_keyword args)));
  [|reflexivity].
destruct (forallb _ (lower <$> default [] (body_keyword args)));
  [|reflexivity].
cbn [negb andb].
destruct (with_attachments args && negb (Attachments_Count message >? 0));
  [reflexivity|].
destruct (without_attachments args && (Attachments_Count message >? 0));
  reflexivity.
Qed.

(** X9: a start or end date that [strptime] rejects makes
    [message_matches] reject every message, and an empty date string is
    no bound at all. *)
Theorem message_matches_bad_date (message : Message) (args : Args) :
  ((exists e, parse_date strptime_ymd (start_date args) = Raise e) \/
   (exists e, parse_date strptime_ymd (end_date args) = Raise e) ->
   message_matches lower strptime_ymd message args = false) /\
  parse_date strptime_ymd (Some []) = Ok None /\
  parse_date strptime_ymd None = Ok None.
Proof.
split; [|split; reflexivity].
unfold message_matches. intros [[e ->] | [e ->]]; [reflexivity|].
by destruct (parse_date strptime_ymd (start_date args)).
Qed.

End WithLibrary.

(** Dates as day numbers, to run the filter: digits only. *)
Definition toy_strptime (s : str) : outcome Z :=
if forallb (fun c => (48 <=? c) && (c <=? 57))%N s
then Ok (Z.of_nat (length s)) else Raise (ValueError "time data").

Lemma message_matches_agrees_witness :
  let message :=
    mkMessage (Some (py "Quarterly Invoice")) (Some (py "A@x.com"))
              (Some (py "see attached")) 5 (py "2024-01-15") 2 true in
  let args :=
    mkArgs (mkPath [] [py "out"]) None None (Some [py "a@X.com"])
           (Some [py "invoice"]) None true false None None 200 false false
           None (py "duplicates") (py "sha256") false false false 80 0 false in
  let email :=
    mkEmail (py "Quarterly Invoice") (py "A@x.com") (py "A") 5 None [] []
            (py "see attached") [] in
  message_matches ascii_lower toy_strptime message args
  = matches ascii_lower
      (CompositeFilter (filters_of_args ascii_lower None None args)) email
    && attachment_switches args 2.
Proof.
cbv zeta. by apply (message_matches_agrees ascii_lower toy_strptime).
Defined.

Lemma message_matches_bad_date_witness :
  message_matches ascii_lower toy_strptime
    (mkMessage None None None 0 [] 0 true)
    (mkArgs (mkPath [] [py "out"]) (Some (py "2024-01-15")) None None None
            None false false None None 200 false false None
            (py "duplicates") (py "sha256") false false false 80 0 false)
  = false.
Proof.
apply (proj1 (message_matches_bad_date ascii_lower toy_strptime _ _)).
left. eexists. reflexivity.
Defined.

End FilterAgreement.

(** ** More on the duplicate tracker *)

Module DuplicatesMore.
Import Duplicates DuplicatesProps.

(** The paths registered under one hash, oldest first. *)
Definition paths_for (h : str) (regs : list (str * Path)) : list Path :=
snd <$> filter (fun hp => fst hp = h) regs.

Lemma paths_for_snoc (h h' : str) (p : Path) (regs : list (str * Path)) :
  paths_for h (regs ++ [(h', p)])
  = paths_for h regs ++ (if decide (h' = h) then [p] else []).
Proof.
unfold paths_for. rewrite filter_app, fmap_app. f_equal.
destruct (decide (h' = h)) as [Heq|Hne].
- by rewrite filter_cons_True.
- by rewrite filter_cons_False.
Qed.

Lemma paths_for_nil_iff (h : str) (regs : list (str * Path)) :
  paths_for h regs = [] <-> h ∉ regs.*1.
Proof.
induction regs as [|[h' p] regs IH]; [split; [intros _; apply not_elem_of_nil | done]|].
change ((h', p) :: regs) with ([(h', p)] ++ regs).
unfold paths_for in *. rewrite filter_app, !fmap_app.
cbn [fmap list_fmap fst app]. rewrite not_elem_of_cons, <- IH.
destruct (decide (h' = h)) as [->|Hne].
- rewrite filter_cons_True by done. cbn. split; [discriminate | intros [? _]; done].
- rewrite filter_cons_False by done. cbn. split; [by split; [congruence|] | by intros [_ ?]].
Qed.

(** What [seen_hashes] holds after any sequence of calls. *)
Lemma run_lookup (algorithm : str) (calls : list call) (h : str) :
  seen_hashes (run (mkTracker algorithm ∅) calls) !! h
  = match paths_for h (registered calls) with
    | [] => None
    | ps => Some ps
    end.
Proof.
induction calls as [|c calls IH] using rev_ind; [apply lookup_empty|].
rewrite run_snoc. destruct c as [p h'|]; cbn [step].
- rewrite registered_snoc_register, register_file_seen, paths_for_snoc.
  destruct (decide (h' = h)) as [->|Hne].
  + rewrite lookup_insert_eq, IH.
    destruct (paths_for h (registered calls)); reflexivity.
  + rewrite lookup_insert_ne, IH, app_nil_r by done. reflexivity.
- rewrite registered_snoc_clear. apply lookup_empty.
Qed.

(** X10: after any sequence of calls on a fresh tracker, the locations
    of a hash are the paths registered under it since the last [clear],
    oldest first, and the hash is a duplicate exactly when it has been
    registered since then. *)
Theorem tracker_locations (algorithm : str) (calls : list call) (h : str) :
  let t := run (mkTracker algorithm ∅) calls in
  get_original_locations t h = paths_for h (registered calls) /\
  (is_duplicate t h = true <-> h ∈ (registered calls).*1).
Proof.
cbv zeta. unfold get_original_locations, is_duplicate.
rewrite run_lookup.
pose proof (paths_for_nil_iff h (registered calls)) as Hnil.
destruct (paths_for h (registered calls)) as [|p ps].
- split; [done|]. rewrite bool_decide_eq_true. split.
  + intros [? ?]; done.
  + intros Hin. exfalso. by apply (proj1 Hnil).
- split; [done|]. rewrite bool_decide_eq_true. split; [|eauto].
  intros _. destruct (decide (h ∈ (registered calls).*1)) as [|Hn]; [done|].
  by apply Hnil in Hn.
Qed.

(** X11: registering appends the path to the locations of its hash and
    makes the hash a duplicate; the locations and the duplicate status of
    every other hash stay as they were, so the first path recorded for a
    hash stays first. *)
Theorem register_file_lookup (t : DuplicateTracker) (p : Path) (h h' : str) :
  get_original_locations (register_file t p h) h
  = get_original_locations t h ++ [p] /\
  is_duplicate (register_file t p h) h = true /\
  (h' <> h ->
   get_original_locations (register_file t p h) h'
   = get_original_locations t h' /\
   is_duplicate (register_file t p h) h' = is_duplicate t h').
Proof.
unfold get_original_locations, is_duplicate. rewrite register_file_seen.
split; [|split].
- by rewrite lookup_insert_eq.
- rewrite lookup_insert_eq. apply bool_decide_eq_true. eauto.
- intros Hne. by rewrite lookup_insert_ne.
Qed.

Lemma register_file_lookup_witness :
  let t := register_file (mkTracker (py "sha256") ∅)
             (mkPath [] [py "a.txt"]) (py "h1") in
  get_original_locations
    (register_file t (mkPath [] [py "b.txt"]) (py "h2")) (py "h1")
  = get_original_locations t (py "h1").
Proof.
cbv zeta.
apply (proj2 (proj2 (register_file_lookup _ _ (py "h2") (py "h1")))).
discriminate.
Defined.

Lemma register_file_size (t : DuplicateTracker) (p : Path) (h : str) :
  Z.of_nat (size (seen_hashes (register_file t p h)))
  = Z.of_nat (size (seen_hashes t))
    + (if is_duplicate t h then 0 else 1).
Proof.
rewrite register_file_seen. unfold is_duplicate.
destruct (seen_hashes t !! h) as [l|] eqn:Hl.
- rewrite map_size_insert_Some by eauto.
  rewrite bool_decide_eq_true_2 by eauto. lia.
- rewrite map_size_insert_None by done.
  rewrite bool_decide_eq_false_2 by (intros [? ?]; done). lia.
Qed.

Lemma length_remove_dups_le (l : list str) :
  (length (remove_dups l) <= length l)%nat.
Proof.
induction l as [|x l IH]; [done|]. cbn [remove_dups].
destruct (decide_rel _ _ _); simpl; lia.
Qed.

(** X12: one registration raises the total by one; it raises the number
    of unique files by one when the hash is new and the number of
    duplicates by one when the hash is known.  In every state reached
    from a fresh tracker the number of duplicates is not negative. *)
Theorem statistics_step (t : DuplicateTracker) (p : Path) (h : str)
    (algorithm : str) (calls : list call) :
  let before := get_statistics t in
  let after := get_statistics (register_file t p h) in
  total_files after = total_files before + 1 /\
  unique_files after
  = unique_files before + (if is_duplicate t h then 0 else 1) /\
  duplicate_files after
  = duplicate_files before + (if is_duplicate t h then 1 else 0) /\
  0 <= duplicate_files (get_statistics (run (mkTracker algorithm ∅) calls)).
Proof.
cbv zeta. unfold get_statistics.
cbn [total_files unique_files duplicate_files].
fold (total (seen_hashes (register_file t p h))).
fold (total (seen_hashes t)).
fold (total (seen_hashes (run (mkTracker algorithm ∅) calls))).
rewrite register_file_total, register_file_size.
split; [done|]. split; [done|]. split.
- destruct (is_duplicate t h); lia.
- destruct (run_invariant algorithm calls) as [Hd Ht].
  rewrite Ht, <- size_dom, Hd, size_list_to_set_remove_dups.
  pose proof (length_remove_dups_le (registered calls).*1) as Hle.
  rewrite length_fmap in Hle. lia.
Qed.

(** X13: the constructor succeeds exactly for an available algorithm and
    fails with DuplicateDetectionError otherwise; a new tracker and a
    cleared one know no hash and report zero files, and [clear] keeps the
    algorithm. *)
Theorem tracker_init_and_clear (algorithms_available : list str)
    (algorithm : str) (t : DuplicateTracker) (h : str) :
  ((algorithm ∈ algorithms_available) ->
   init algorithms_available algorithm = Ok (mkTracker algorithm ∅)) /\
  ((algorithm ∉ algorithms_available) ->
   exists msg, init algorithms_available algorithm
               = Raise (DuplicateDetectionError msg)) /\
  is_duplicate (mkTracker algorithm ∅) h = false /\
  is_duplicate (clear t) h = false /\
  get_original_locations (clear t) h = [] /\
  get_statistics (clear t) = mkStats 0 0 0 /\
  hash_algorithm (clear t) = hash_algorithm t.
Proof.
unfold init. split; [|split].
- intros Hin. by rewrite decide_True.
- intros Hnin. rewrite decide_False by done. eauto.
- repeat split.
Qed.

Lemma tracker_init_and_clear_witness :
  init [py "md5"; py "sha256"] (py "sha256") = Ok (mkTracker (py "sha256") ∅)
  /\ exists msg, init [py "md5"; py "sha256"] (py "crc32")
                 = Raise (DuplicateDetectionError msg).
Proof.
split.
- apply (proj1 (tracker_init_and_clear [py "md5"; py "sha256"] (py "sha256")
                  (mkTracker [] ∅) [])).
  apply list_elem_of_further, list_elem_of_here.
- apply (proj1 (proj2 (tracker_init_and_clear [py "md5"; py "sha256"]
                         (py "crc32") (mkTracker [] ∅) []))).
  rewrite !not_elem_of_cons. repeat split; try discriminate.
  apply not_elem_of_nil.
Defined.

End DuplicatesMore.

(** ** More on the unique path, and relative paths *)

Module UniquePathMore.
Import UniquePath UniquePathProps.






End UniquePathMore.

Module RelativePath.

(** [path.relative_to(other)]: the components after those of [other],
    ValueError when [other] is not an ancestor (or the path itself).
    Components are compared exactly, as the POSIX flavour does. *)
Definition relative_to (p other : Path) : outcome Path :=
if decide (anchor p = anchor other /\ tail other `prefix_of` tail p)
then Ok (mkPath [] (drop (length (tail other)) (tail p)))
else Raise (ValueError "path is not in the subpath of the other").

(** [s.replace('\\', '/')] *)
Definition backslash_to_slash (s : str) : str :=
(fun c => if (c =? 92)%N then 47%N else c) <$> s.

Section WithStr.

Variable path_str : Path -> str.

(** [get_relative_path(from_path, to_path)], path_utils.py 124-142. *)
Definition get_relative_path (from_path to_path : Path) : str :=
match relative_to to_path (parent from_path) with
| Ok rel_path => backslash_to_slash (path_str rel_path)
| Raise _ => backslash_to_slash (path_str to_path)
end.

(** X15: [get_relative_path] never returns a backslash, and for a target
    below the directory of the source file it renders the components
    that lead from that directory to the target. *)
Theorem get_relative_path_forward_slashes (from_path to_path : Path) :
  (92%N ∉ get_relative_path from_path to_path) /\
  (forall below,
     to_path = mkPath (anchor from_path) (tail (parent from_path) ++ below) ->
     get_relative_path from_path to_path
     = backslash_to_slash (path_str (mkPath [] below))).
Proof.
assert (Hno : forall s, 92%N ∉ backslash_to_slash s).
{ intros s Hin. unfold backslash_to_slash in Hin.
  apply list_elem_of_fmap in Hin as (c & Hc & _).
  destruct (N.eqb_spec c 92); [discriminate Hc | congruence]. }
split.
- unfold get_relative_path. destruct (relative_to _ _); apply Hno.
- intros below ->. unfold get_relative_path, relative_to.
  cbn [anchor tail parent].
  rewrite decide_True by (split; [done | by apply prefix_app_r]).
  by rewrite drop_app_length.
Qed.

End WithStr.

Lemma get_relative_path_forward_slashes_witness :
  get_relative_path FolderPathProps.slash_str
    (mkPath [] [py "out"; py "mail.md"])
    (mkPath [] [py "out"; py "duplicates"; py "a.txt"])
  = py "duplicates/a.txt".
Proof.
rewrite (proj2 (get_relative_path_forward_slashes
                  FolderPathProps.slash_str
                  (mkPath [] [py "out"; py "mail.md"])
                  (mkPath [] [py "out"; py "duplicates"; py "a.txt"]))
           [py "duplicates"; py "a.txt"] eq_refl).
reflexivity.
Defined.

End RelativePath.

(** ** Batched iteration over the messages of a folder *)

Module Iterate.
Section WithItems.

Context {A : Type}.

(** [items.Count] and [items.Item(i)] of the folder. *)
Variable total : Z.
Variable Item : Z -> outcome A.

(** The items a [for i in indices] loop yields: those whose access does
    not raise. *)
Definition accessible (indices : list Z) : list A :=
omap (fun i => match Item i with Ok a => Some a | Raise _ => None end) indices.

(** [range(a, b)] *)
Definition range (a b : Z) : list Z := seqZ a (b - a).

(** [limit and processed >= limit] *)
Definition limit_reached (limit : option Z) (processed : Z) : bool :=
match limit with
| Some l => negb (l =? 0) && (processed >=? l)
| None => false
end.

(** The [while processed < total] loop of [iterate_messages] in main.py,
    lines 295-311; [None] when the fuel runs out. *)
Fixpoint main_iterate_loop (fuel : nat) (limit : option Z) (batch_size : Z)
    (processed : Z) : option (list A) :=
match fuel with
| O => None
| S fuel' =>
    if processed <? total then
      if limit_reached limit processed then Some []
      else
        let end_index := Z.min (processed + batch_size) total in
        match main_iterate_loop fuel' limit batch_size end_index with
        | Some rest =>
            Some (accessible (range (processed + 1) (end_index + 1)) ++ rest)
        | None => None
        end
    else Some []
end.

(** [iterate_messages(folder, limit, batch_size)], main.py 289-311: the
    messages it yields, in order. *)
Definition main_iterate_messages (fuel : nat) (limit : option Z)
    (batch_size : Z) : option (list A) :=
main_iterate_loop fuel limit batch_size 0.

(** The loop of [OutlookClient.iterate_messages], client.py 183-205,
    which also cuts each batch at the limit. *)
Fixpoint client_iterate_loop (fuel : nat) (limit : option Z) (batch_size : Z)
    (processed : Z) : option (list A) :=
match fuel with
| O => None
| S fuel' =>
    if processed <? total then
      if limit_reached limit processed then Some []
      else
        let end_index := Z.min (processed + batch_size) total in
        let end_index :=
          match limit with
          | Some l => if l =? 0 then end_index else Z.min end_index l
          | None => end_index
          end in
        match client_iterate_loop fuel' limit batch_size end_index with
        | Some rest =>
            Some (accessible (range (processed + 1) (end_index + 1)) ++ rest)
        | None => None
        end
    else Some []
end.

Definition client_iterate_messages (fuel : nat) (batch_size : Z)
    (limit : option Z) : option (list A) :=
client_iterate_loop fuel limit batch_size 0.

End WithItems.
End Iterate.

Module IterateProps.
Import Iterate.

Section WithItems.

Context {A : Type}.
Variable total : Z.
Variable Item : Z -> outcome A.

Lemma accessible_range_app (a b c : Z) :
  a <= b -> b <= c ->
  accessible Item (range a b) ++ accessible Item (range b c)
  = accessible Item (range a c).
Proof.
intros Hab Hbc. unfold accessible, range. rewrite <- omap_app. f_equal.
replace (c - a) with ((b - a) + (c - b)) by lia.
rewrite seqZ_app by lia. do 2 f_equal. lia.
Qed.

Lemma geb_false (a b : Z) : (a >=? b) = false -> a < b.
Proof. rewrite Z.geb_leb. apply Z.leb_gt. Qed.

Lemma accessible_range_empty (a : Z) : accessible Item (range a a) = [].
Proof. unfold accessible, range. by rewrite seqZ_nil by lia. Qed.

(** The effective bound of the limit: none when absent or zero. *)
Definition bound (limit : option Z) : Z :=
match limit with
| Some l => if l =? 0 then total else Z.min l total
| None => total
end.

Lemma client_loop_closed (batch_size : Z) (limit : option Z) (fuel : nat) :
  1 <= batch_size ->
  forall processed,
    0 <= processed ->
    (Z.to_nat (total - processed) < fuel)%nat ->
    client_iterate_loop total Item fuel limit batch_size processed
    = Some (accessible Item
              (range (processed + 1) (Z.max processed (bound limit) + 1))).
Proof.
intros Hb. induction fuel as [|fuel IH]; intros processed Hp Hfuel; [lia|].
cbn [client_iterate_loop].
destruct (Z.ltb_spec processed total) as [Hlt|Hge].
- destruct (limit_reached limit processed) eqn:Hreached.
  + unfold limit_reached in Hreached. destruct limit as [l|]; [|done].
    apply andb_true_iff in Hreached as [Hnz Hle].
    apply negb_true_iff, Z.eqb_neq in Hnz. apply Z.geb_le in Hle.
    unfold bound. rewrite (proj2 (Z.eqb_neq l 0) Hnz).
    replace (Z.max processed (Z.min l total)) with processed by lia.
    by rewrite accessible_range_empty.
  + set (end_index :=
      match limit with
      | Some l => if l =? 0 then Z.min (processed + batch_size) total
                  else Z.min (Z.min (processed + batch_size) total) l
      | None => Z.min (processed + batch_size) total
      end).
    assert (Hend : processed < end_index /\ end_index <= bound limit).
    { unfold end_index, bound, limit_reached in *.
      destruct limit as [l|]; [|lia].
      destruct (Z.eqb_spec l 0); [lia|]. cbn [negb andb] in Hreached.
      apply geb_false in Hreached. lia. }
    rewrite IH by lia.
    rewrite accessible_range_app by lia.
    do 3 f_equal. assert (bound limit <= total); [|lia].
    unfold bound. destruct limit as [l|]; [|lia].
    destruct (l =? 0); lia.
- assert (bound limit <= total).
  { unfold bound. destruct limit as [l|]; [|lia]. destruct (l =? 0); lia. }
  replace (Z.max processed (bound limit)) with processed by lia.
  by rewrite accessible_range_empty.
Qed.

(** X16: with a batch size of at least 1, [OutlookClient.iterate_messages]
    returns, whatever the batch size, the accessible messages among the
    first [min(limit, total)] (all of them without a limit, none for a
    negative limit), in folder order; fuel above the item count is
    enough for the loop to end. *)
Theorem client_iterate_messages_result (batch_size : Z) (limit : option Z)
    (fuel : nat) :
  1 <= batch_size ->
  (Z.to_nat total < fuel)%nat ->
  client_iterate_messages total Item fuel batch_size limit
  = Some (accessible Item (range 1 (Z.max 0 (bound limit) + 1))).
Proof.
intros Hb Hfuel. unfold client_iterate_messages.
rewrite client_loop_closed; [done | done | lia |].
by rewrite Z.sub_0_r.
Qed.

Lemma main_loop_bounds (batch_size : Z) (limit : option Z) (fuel : nat) :
  1 <= batch_size ->
  forall processed,
    0 <= processed ->
    (Z.to_nat (total - processed) < fuel)%nat ->
    exists N,
      main_iterate_loop total Item fuel limit batch_size processed
      = Some (accessible Item (range (processed + 1) (N + 1))) /\
      processed <= N <= Z.max total processed /\
      (limit_reached limit N = false -> N = Z.max total processed) /\
      (forall l, limit = Some l -> l <> 0 ->
         (l <= processed -> N = processed) /\
         (processed < l -> Z.min l total <= N /\ N < l + batch_size)).
Proof.
intros Hb. induction fuel as [|fuel IH]; intros processed Hp Hfuel; [lia|].
cbn [main_iterate_loop].
destruct (Z.ltb_spec processed total) as [Hlt|Hge].
- destruct (limit_reached limit processed) eqn:Hreached.
  + exists processed. rewrite accessible_range_empty.
    split; [done|]. split; [lia|]. split; [congruence|].
    intros l -> Hnz. unfold limit_reached in Hreached.
    apply andb_true_iff in Hreached as [_ Hle]. apply Z.geb_le in Hle.
    split; [done | lia].
  + set (end_index := Z.min (processed + batch_size) total).
    destruct (IH end_index ltac:(lia) ltac:(lia))
      as (N & -> & HN & Hfree & Hlim).
    exists N. rewrite accessible_range_app by lia.
    split; [done|]. split; [lia|]. split; [intros Hr; rewrite (Hfree Hr); lia|].
    intros l -> Hnz. specialize (Hlim l eq_refl Hnz) as [Hle Hgt].
    unfold limit_reached in Hreached.
    rewrite (proj2 (Z.eqb_neq l 0) Hnz) in Hreached.
    cbn [negb andb] in Hreached. apply geb_false in Hreached.
    split; [lia|]. intros _.
    destruct (Z.le_gt_cases l end_index) as [Hle'|Hgt'].
    * rewrite (Hle Hle'). unfold end_index. lia.
    * apply Hgt. lia.
- exists processed. rewrite accessible_range_empty.
  split; [done|]. split; [lia|]. split; [lia|].
  intros l -> Hnz. split; [done | lia].
Qed.

(** X17: with a batch size of at least 1, [iterate_messages] of main.py
    returns the accessible messages among the first N of the folder, in
    order, where N is the item count when there is no limit (or when the
    limit is never reached), 0 for a negative limit, and otherwise at
    least [min(limit, total)] and less than [limit + batch_size]: the
    limit is only tested between batches. *)
Theorem main_iterate_messages_result (batch_size : Z) (limit : option Z)
    (fuel : nat) :
  1 <= batch_size ->
  (Z.to_nat total < fuel)%nat ->
  exists N,
    main_iterate_messages total Item fuel limit batch_size
    = Some (accessible Item (range 1 (N + 1))) /\
    0 <= N <= Z.max total 0 /\
    (limit_reached limit N = false -> N = Z.max total 0) /\
    (forall l, limit = Some l -> l < 0 -> N = 0) /\
    (forall l, limit = Some l -> 0 < l ->
       Z.min l total <= N /\ N < l + batch_size).
Proof.
intros Hb Hfuel. unfold main_iterate_messages.
destruct (main_loop_bounds batch_size limit fuel Hb 0 ltac:(lia))
  as (N & Hrun & HN & Hfree & Hlim).
{ by rewrite Z.sub_0_r. }
exists N. split; [exact Hrun|]. split; [lia|]. split; [exact Hfree|]. split.
- intros l Hl Hneg. destruct (Hlim l Hl ltac:(lia)) as [Hle _]. apply Hle. lia.
- intros l Hl Hpos. destruct (Hlim l Hl ltac:(lia)) as [_ Hgt]. apply Hgt. lia.
Qed.

End WithItems.

(** A folder of seven messages, the third of which cannot be read. *)
Definition seven (i : Z) : outcome Z :=
if i =? 3 then Raise (OSError "Operation aborted") else Ok i.

Example main_overshoots_limit :
  main_iterate_messages 7 seven 10 (Some 5) 3 = Some [1; 2; 4; 5; 6].
Proof. reflexivity. Qed.

Example client_respects_limit :
  client_iterate_messages 7 seven 10 3 (Some 5) = Some [1; 2; 4; 5].
Proof. reflexivity. Qed.

Example zero_batch_size_runs_on :
  main_iterate_messages 7 seven 50 None 0 = None.
Proof. reflexivity. Qed.

Lemma client_iterate_messages_result_witness :
  client_iterate_messages 7 seven 8 3 (Some 5)
  = Some (accessible seven (range 1 6)).
Proof.
apply (client_iterate_messages_result 7 seven 3 (Some 5) 8); [lia|].
vm_compute. lia.
Defined.

Lemma main_iterate_messages_result_witness :
  exists N,
    main_iterate_messages 7 seven 8 (Some 5) 3
    = Some (accessible seven (range 1 (N + 1))) /\ 5 <= N < 8.
Proof.
destruct (main_iterate_messages_result 7 seven 3 (Some 5) 8)
  as (N & Hrun & _ & _ & _ & Hlim); [lia | vm_compute; lia |].
exists N. split; [exact Hrun|].
destruct (Hlim 5 eq_refl ltac:(lia)). lia.
Defined.

End IterateProps.

(** ** Exit codes of the run, and what saving a message leaves behind *)

Module RunMore.
Import MainExport RunExportProps.

Section Run.

Variable process_messages : Args -> World -> outcome Z * World.
Variable startfile : Path -> World -> outcome unit * World.


Lemma set_com_initialized (w : World) (b : bool) :
  com_initialized (set_com w b) = b.
Proof. reflexivity. Qed.


End Run.


Lemma logging_log_files (l : level) (text : string) (p : option Path)
    (w : World) :
  fs (logging_log l text p w) = fs w.
Proof. unfold logging_log. by destruct (_ <=? _). Qed.

(** The file [save_mail] saves the message in, main.py 315-333. *)
Definition mail_path (base_dir : Path) (message : Message) (args : Args)
    : Path :=
let subject :=
  Main.sanitize_for_fs (or_else (Subject message) [])
                       (subject_sanitize_length args) in
let sender :=
  Main.sanitize_for_fs (or_else (SenderEmailAddress message) (py "unknown"))
                       120 in
child (child (child (child base_dir sender) subject)
             (ReceivedTime_ymd message))
      (Main.sanitize_for_fs subject 255 ++ py ".msg").

Lemma parent_child (p : Path) (segment : str) :
  parent (child p segment) = p.
Proof.
unfold parent, child. cbn [anchor tail].
rewrite removelast_last. by destruct p.
Qed.

(** X19: when [save_mail] returns, no file or directory has disappeared.
    In dry-run mode it returns the destination and the set of files is
    as before.  Outside dry-run mode it returns [None] exactly when the
    save failed (the client's [SaveAs] fails, or the destination is a
    directory), and then the set of files is as before; otherwise it
    returns the destination, which is a file that exists afterwards. *)
Theorem save_mail_postcondition (base_dir : Path) (message : Message)
    (args : Args) (w w' : World) (r : option Path) :
  save_mail base_dir message args w = (Ok r, w') ->
  dirs (fs w) ⊆ dirs (fs w') /\
  files (fs w) ⊆ files (fs w') /\
  (dry_run args = true ->
   r = Some (mail_path base_dir message args) /\
   files (fs w') = files (fs w)) /\
  (dry_run args = false ->
   (r = None <->
    SaveAs_succeeds message = false \/
    is_dir (fs w') (mail_path base_dir message args) = true) /\
   match r with
   | Some dest_path =>
       dest_path = mail_path base_dir message args /\
       dest_path ∈ files (fs w')
   | None => files (fs w') = files (fs w)
   end).
Proof.
unfold save_mail, mail_path. cbv zeta.
set (target_dir := child _ (ReceivedTime_ymd message)).
set (dest := child target_dir _).
unfold mkdir_parents.
destruct (bool_decide (target_dir ∈ files (fs w))); [discriminate|].
destruct (existsb _ _); [discriminate|].
set (fs1 := mkFS _ (files (fs w))).
assert (Hd : dirs (fs w) ⊆ dirs fs1).
{ unfold fs1. cbn [dirs]. intros x Hx.
  apply elem_of_union. left. apply elem_of_union. by left. }
assert (Hparent : is_dir fs1 (parent dest) = true).
{ unfold dest. rewrite parent_child. unfold is_dir, fs1. cbn [dirs].
  apply orb_true_iff. right. apply bool_decide_eq_true.
  apply elem_of_union. left. apply elem_of_union. right.
  by apply elem_of_singleton. }
destruct (dry_run args).
- intros [= <- <-]. rewrite logging_log_files. cbn [fs set_fs].
  split; [done|]. split; [done|]. split; [done|]. discriminate.
- destruct (SaveAs_succeeds message).
  + cbn [fs set_fs]. unfold write_file. rewrite Hparent. cbn [negb].
    destruct (is_dir fs1 dest) eqn:Hdest.
    { intros [= <- <-]. rewrite logging_log_files. cbn [fs set_fs].
      split; [done|]. split; [done|]. split; [discriminate|]. intros _.
      split; [|done]. split; [by right | done]. }
    intros [= <- <-]. rewrite logging_log_files. cbn [fs set_fs files dirs].
    split; [done|]. split.
    { intros x Hx. apply elem_of_union. by left. }
    split; [discriminate|]. intros _. split.
    * split; [discriminate|]. intros [H | H]; [discriminate H|].
      change (is_dir fs1 dest = true) in H. congruence.
    * split; [done|]. apply elem_of_union. right. by apply elem_of_singleton.
  + intros [= <- <-]. rewrite logging_log_files. cbn [fs set_fs].
    split; [done|]. split; [done|]. split; [discriminate|]. intros _.
    split; [|done]. split; [by left | done].
Qed.

(** Outside dry-run mode, on a client whose [SaveAs] fails. *)
Lemma save_mail_postcondition_witness :
  exists w',
    save_mail DryRunProps.out
      (mkMessage (Some (py "Report")) (Some (py "a@x.com")) None 0
                 (py "2024-01-15") 0 false)
      (default_args DryRunProps.out) DryRunProps.logging_world
    = (Ok None, w') /\
    files (fs w') = files (fs DryRunProps.logging_world).
Proof.
eexists. split; [reflexivity|].
exact (proj2 (proj2 (proj2 (proj2
  (save_mail_postcondition DryRunProps.out
     (mkMessage (Some (py "Report")) (Some (py "a@x.com")) None 0
                (py "2024-01-15") 0 false)
     (default_args DryRunProps.out) DryRunProps.logging_world _ _ eq_refl)))
  eq_refl)).
Defined.

End RunMore.

(** ** exporters/base.py: the factory *)

Module Factory.
Import Exporters.

(** An instance of one of the three exporter classes; [MarkdownExporter]
    inherits the constructor of [AttachmentExporter]. *)
Inductive Exporter : Type :=
| AttachmentExporterObj (e : AttachmentExporter)
| MessageExporterObj (config : ExportConfig)
| MarkdownExporterObj (e : AttachmentExporter).

(** [ExporterFactory.create_exporter], exporters/base.py 82-113. *)
Definition create_exporter (algorithms_available : list str)
    (config : ExportConfig) (export_type : str) : outcome Exporter :=
if decide (export_type = py "attachments") then
  match AttachmentExporter_init algorithms_available config with
  | Ok e => Ok (AttachmentExporterObj e)
  | Raise e => Raise e
  end
else if decide (export_type = py "msg") then Ok (MessageExporterObj config)
else if decide (export_type = py "markdown") then
  match AttachmentExporter_init algorithms_available config with
  | Ok e => Ok (MarkdownExporterObj e)
  | Raise e => Raise e
  end
else Raise (ValueError "Unknown export type").

(** X20: the factory returns an exporter only for the type [msg]; for
    [attachments] and [markdown] the constructor raises TypeError (the
    tracker is built with a keyword it does not accept), and any other
    type is answered with ValueError. *)
Theorem create_exporter_outcomes (algorithms_available : list str)
    (config : ExportConfig) (export_type : str) :
  (forall x,
     create_exporter algorithms_available config export_type = Ok x
     <-> export_type = py "msg" /\ x = MessageExporterObj config) /\
  (export_type = py "attachments" \/ export_type = py "markdown" ->
   exists msg, create_exporter algorithms_available config export_type
               = Raise (TypeError msg)) /\
  (export_type <> py "attachments" -> export_type <> py "msg" ->
   export_type <> py "markdown" ->
   exists msg, create_exporter algorithms_available config export_type
               = Raise (ValueError msg)).
Proof.
unfold create_exporter.
rewrite ExporterProps.AttachmentExporter_init_raises.
split; [|split].
- intros x. repeat case_decide; subst; split;
    try discriminate; try (intros [Heq _]; done).
  + intros [= <-]. done.
  + intros [_ ->]. done.
- intros [-> | ->]; [rewrite decide_True by done; eauto|].
  rewrite decide_False by discriminate. rewrite decide_False by discriminate.
  rewrite decide_True by done. eauto.
- intros H1 H2 H3. rewrite !decide_False by done. eauto.
Qed.

Lemma create_exporter_outcomes_witness :
  exists msg, create_exporter [py "sha256"]
                (default_config (mkPath [] [py "out"])) (py "pdf")
              = Raise (ValueError msg).
Proof.
apply (proj2 (proj2 (create_exporter_outcomes [py "sha256"]
                       (default_config (mkPath [] [py "out"])) (py "pdf"))));
  discriminate.
Defined.

End Factory.

(** ** main.py: saving one attachment *)

Module MainAttachment.
Import Exporters.

(** The loop [while dup_dest.exists(): dup_dest = duplicates_dir /
    f"{dup_dest.stem}_{counter}{dup_dest.suffix}"] of main.py 268-271;
    [None] when the fuel runs out. *)
Fixpoint dup_loop (fuel : nat) (fs : FileSystem) (duplicates_dir : Path)
    (dup_dest : Path) (counter : nat) : option Path :=
match fuel with
| O => None
| S fuel' =>
    if path_exists fs dup_dest then
      dup_loop fuel' fs duplicates_dir
        (child duplicates_dir
           (stem dup_dest ++ py "_" ++ decimal counter ++ suffix dup_dest))
        (S counter)
    else Some dup_dest
end.

(** The loop [while final_path.exists(): final_path =
    dest_path.with_name(f"{dest_path.stem}_{counter}{dest_path.suffix}")]
    of main.py 278-282. *)
Fixpoint final_loop (fuel : nat) (fs : FileSystem) (dest_path : Path)
    (final_path : Path) (counter : nat) : option (outcome Path) :=
match fuel with
| O => None
| S fuel' =>
    if path_exists fs final_path then
      match with_name dest_path
              (stem dest_path ++ py "_" ++ decimal counter ++ suffix dest_path)
      with
      | Raise e => Some (Raise e)
      | Ok new_path => final_loop fuel' fs dest_path new_path (S counter)
      end
    else Some (Ok final_path)
end.

Section WithLibrary.

(** [target_dir / args.duplicates_subfolder] for an arbitrary name,
    [str(path)], the md5 digest of a string and hashlib's algorithms. *)
Variable truediv : Path -> str -> Path.
Variable path_str : Path -> str.
Variable md5_hexdigest : str -> str.
Variable algorithms_available : list str.

(** [save_attachment], main.py 203-286.  [received_hms] is the
    [%H%M%S] rendering of the received time; the hash of the saved bytes
    is the attachment's [content_hash].  The result holds the returned
    path, the world and the [seen_hashes] dictionary after the call. *)
Definition save_attachment (fuel : nat) (base_dir : Path) (message : Message)
    (received_hms : str) (attachment : ComAttachment) (args : Args)
    (seen_hashes : gmap str (list Path)) (w : World)
    : option (outcome (option Path) * World * gmap str (list Path)) :=
if negb (MainArgs.include_inline args)
   && bool_decide (default 0 (Position attachment) = 0)
   && bool_decide (Type_ attachment = Some 5)
then Some (Ok None, w, seen_hashes)
else
  let raw_subject := or_else (Subject message) [] in
  let subject :=
    Main.sanitize_for_fs raw_subject (MainArgs.subject_sanitize_length args) in
  let sender :=
    Main.sanitize_for_fs (or_else (SenderEmailAddress message) (py "unknown"))
                         120 in
  let date_folder := ReceivedTime_ymd message in
  let target_dir := child (child (child base_dir sender) subject) date_folder in
  let target_dir :=
    if len (path_str target_dir) >? 200 then
      let short_subject := Main.sanitize_for_fs raw_subject 50 in
      let target_dir :=
        child (child (child base_dir sender) short_subject) date_folder in
      if len (path_str target_dir) >? 200 then
        let subject_hash := slice_to 8 (md5_hexdigest raw_subject) in
        child (child (child base_dir sender) (py "subj_" ++ subject_hash))
              date_folder
      else target_dir
    else target_dir in
  let '(made, w) :=
    match mkdir_parents (fs w) target_dir with
    | Ok fs1 => (Ok target_dir, set_fs w fs1)
    | Raise _ =>
        let w := logging_log WARNING "Failed to create directory. Using fallback."
                   (Some target_dir) w in
        let fallback_name :=
          sender ++ py "_" ++ date_folder ++ py "_" ++ received_hms in
        let target_dir :=
          child base_dir (Main.sanitize_for_fs fallback_name 100) in
        match mkdir_parents (fs w) target_dir with
        | Ok fs1 => (Ok target_dir, set_fs w fs1)
        | Raise e => (Raise e, w)
        end
    end in
  match made with
  | Raise e => Some (Raise e, w, seen_hashes)
  | Ok target_dir =>
      let filename :=
        Main.sanitize_for_fs
          (or_else (FileName attachment) (py "attachment.bin")) 255 in
      let dest_path := child target_dir filename in
      if MainArgs.dry_run args then
        Some (Ok (Some dest_path),
              logging_log INFO "[DRY-RUN] Would save attachment"
                (Some dest_path) w,
              seen_hashes)
      else
        match with_suffix dest_path (suffix dest_path ++ py ".tmp") with
        | Raise e => Some (Raise e, w, seen_hashes)
        | Ok temp_path =>
            let failed :=
              Some (Ok None,
                    logging_log WARNING "Failed to save attachment temp file"
                      (Some temp_path) w,
                    seen_hashes) in
            if negb (SaveAsFile_succeeds attachment) then failed
            else
              match write_file (fs w) temp_path with
              | Raise _ => failed
              | Ok fs2 =>
                  let w := set_fs w fs2 in
                  if negb (bool_decide
                             (MainArgs.hash_algorithm args
                              ∈ algorithms_available))
                  then Some (Raise (ValueError "unsupported hash type"), w,
                             seen_hashes)
                  else
                    let file_hash := content_hash attachment in
                    match seen_hashes !! file_hash with
                    | Some locations =>
                        let duplicates_dir :=
                          truediv target_dir
                                  (MainArgs.duplicates_subfolder args) in
                        match mkdir_parents (fs w) duplicates_dir with
                        | Raise e => Some (Raise e, w, seen_hashes)
                        | Ok fs3 =>
                            let w := set_fs w fs3 in
                            match dup_loop fuel (fs w) duplicates_dir
                                    (child duplicates_dir filename) 1 with
                            | None => None
                            | Some dup_dest =>
                                let w :=
                                  set_fs w (rename (fs w) temp_path dup_dest)
                                in
                                Some (Ok (Some dup_dest),
                                      logging_log INFO "Duplicate detected"
                                        (Some dup_dest) w,
                                      <[file_hash := locations ++ [dup_dest]]>
                                        seen_hashes)
                            end
                        end
                    | None =>
                        match final_loop fuel (fs w) dest_path dest_path 1 with
                        | None => None
                        | Some (Raise e) => Some (Raise e, w, seen_hashes)
                        | Some (Ok final_path) =>
                            let w :=
                              set_fs w (rename (fs w) temp_path final_path)
                            in
                            Some (Ok (Some final_path),
                                  logging_log DEBUG "Saved attachment"
                                    (Some final_path) w,
                                  <[file_hash := [final_path]]> seen_hashes)
                        end
                    end
              end
        end
  end.

End WithLibrary.
End MainAttachment.

Module MainAttachmentProps.
Import Exporters MainAttachment UniquePath UniquePathProps.

Lemma path_exists_entries (fs : FileSystem) (p : Path) :
  tail p <> [] -> path_exists fs p = bool_decide (p ∈ entries fs).
Proof.
intros Ht. unfold path_exists, is_dir, entries.
rewrite (bool_decide_eq_false_2 _ Ht). cbn [orb].
destruct (decide (p ∈ dirs fs)) as [Hd|Hd].
- rewrite (bool_decide_eq_true_2 _ Hd). cbn [orb]. symmetry.
  apply bool_decide_eq_true. apply elem_of_union. by left.
- rewrite (bool_decide_eq_false_2 _ Hd). cbn [orb].
  apply bool_decide_ext. rewrite elem_of_union. split; [by right|].
  by intros [?|?].
Qed.

Lemma name_tail (p : Path) : name p <> [] -> tail p <> [].
Proof. unfold name. by destruct (tail p). Qed.

Lemma candidate_tail (p : Path) (k : nat) : tail (candidate p (S k)) <> [].
Proof. unfold candidate. cbn [tail]. by destruct (removelast (tail p)). Qed.

Lemma final_loop_unique_loop (fs : FileSystem) (dest_path : Path) :
  name dest_path <> [] ->
  forall fuel final_path counter,
    tail final_path <> [] ->
    final_loop (S fuel) fs dest_path final_path (S counter)
    = if path_exists fs final_path
      then unique_loop fuel (entries fs) dest_path (S counter)
      else Some (Ok final_path).
Proof.
intros Hname. induction fuel as [|fuel IH]; intros final_path counter Ht.
- cbn [final_loop unique_loop].
  destruct (path_exists fs final_path); [|done].
  fold (numbered dest_path (S counter)). by rewrite numbered_ok.
- change (final_loop (S (S fuel)) fs dest_path final_path (S counter))
    with (if path_exists fs final_path
          then match numbered dest_path (S counter) with
               | Raise e => Some (Raise e)
               | Ok new_path =>
                   final_loop (S fuel) fs dest_path new_path (S (S counter))
               end
          else Some (Ok final_path)).
  destruct (path_exists fs final_path); [|done].
  cbn [unique_loop]. rewrite numbered_ok by done.
  rewrite IH by apply candidate_tail.
  rewrite (path_exists_entries fs (candidate dest_path (S counter)))
    by apply candidate_tail.
  unfold exists_. by destruct (bool_decide _).
Qed.

(** X21: the renaming loop that [save_attachment] of main.py inlines for
    a new file returns what [ensure_unique_path] of path_utils.py returns
    on the same path and file system, one loop test later. *)
Theorem final_loop_is_ensure_unique_path (fs : FileSystem) (dest_path : Path)
    (fuel : nat) :
  name dest_path <> [] ->
  final_loop (S fuel) fs dest_path dest_path 1
  = ensure_unique_path fuel (entries fs) dest_path.
Proof.
intros Hname. rewrite final_loop_unique_loop by auto using name_tail.
unfold ensure_unique_path, exists_.
rewrite (path_exists_entries fs dest_path) by auto using name_tail.
by destruct (bool_decide _).
Qed.

Lemma final_loop_is_ensure_unique_path_witness :
  final_loop 3
    (mkFS ∅ {[report; candidate report 1]}) report report 1
  = ensure_unique_path 2 (entries (mkFS ∅ {[report; candidate report 1]}))
      report.
Proof. by apply final_loop_is_ensure_unique_path. Defined.

(** The sequence the duplicates loop walks: each name is built from the
    stem and suffix of the previous one. *)
Fixpoint dup_candidate (duplicates_dir dup_dest : Path) (k : nat) : Path :=
match k with
| O => dup_dest
| S k' =>
    let previous := dup_candidate duplicates_dir dup_dest k' in
    child duplicates_dir
      (stem previous ++ py "_" ++ decimal k ++ suffix previous)
end.

Lemma stem_suffix (p : Path) : stem p ++ suffix p = name p.
Proof.
unfold stem, suffix. destruct (rfind 46%N (name p)) as [i|].
- destruct (_ && _); [apply take_drop | apply app_nil_r].
- apply app_nil_r.
Qed.

Lemma name_child (d : Path) (x : str) : name (child d x) = x.
Proof. unfold name, child. cbn [tail]. by rewrite last_snoc. Qed.

Lemma dup_candidate_longer (duplicates_dir dup_dest : Path) (k : nat) :
  (length (name (dup_candidate duplicates_dir dup_dest k))
   < length (name (dup_candidate duplicates_dir dup_dest (S k))))%nat.
Proof.
cbn [dup_candidate]. rewrite name_child, !length_app.
rewrite <- (stem_suffix (dup_candidate duplicates_dir dup_dest k)) at 1.
rewrite length_app. simpl. lia.
Qed.

Lemma dup_candidate_mono (duplicates_dir dup_dest : Path) (j k : nat) :
  (j < k)%nat ->
  (length (name (dup_candidate duplicates_dir dup_dest j))
   < length (name (dup_candidate duplicates_dir dup_dest k)))%nat.
Proof.
induction 1 as [|k Hle IH].
- apply dup_candidate_longer.
- etrans; [exact IH | apply dup_candidate_longer].
Qed.

Lemma dup_candidate_inj (duplicates_dir dup_dest : Path) (j k : nat) :
  dup_candidate duplicates_dir dup_dest j
  = dup_candidate duplicates_dir dup_dest k -> j = k.
Proof.
intros Heq. destruct (Nat.lt_trichotomy j k) as [Hlt | [-> | Hgt]]; [|done|].
- pose proof (dup_candidate_mono duplicates_dir dup_dest j k Hlt) as H.
  rewrite Heq in H. lia.
- pose proof (dup_candidate_mono duplicates_dir dup_dest k j Hgt) as H.
  rewrite Heq in H. lia.
Qed.

Lemma dup_candidate_tail (duplicates_dir dup_dest : Path) (k : nat) :
  tail dup_dest <> [] ->
  tail (dup_candidate duplicates_dir dup_dest k) <> [].
Proof.
intros Ht. destruct k; [done|]. cbn [dup_candidate child tail].
by destruct (tail duplicates_dir).
Qed.

(** A finite file system cannot hold the first [size + 1] candidates. *)
Lemma some_dup_candidate_free (fs : FileSystem) (duplicates_dir dup_dest : Path) :
  tail dup_dest <> [] ->
  exists k, (k <= size (entries fs))%nat /\
    path_exists fs (dup_candidate duplicates_dir dup_dest k) = false.
Proof.
intros Ht.
set (f := dup_candidate duplicates_dir dup_dest).
destruct (decide (Forall (fun k => f k ∈ entries fs)
                         (seq 0 (S (size (entries fs)))))) as [Hall|Hex].
- exfalso.
  assert (Hnd : NoDup (f <$> seq 0 (S (size (entries fs))))).
  { apply NoDup_fmap_2_strong; [|apply NoDup_seq].
    intros j k _ _ Heq. by apply dup_candidate_inj in Heq. }
  assert (Hsub : (list_to_set (f <$> seq 0 (S (size (entries fs))))
                  : gset Path) ⊆ entries fs).
  { intros x Hx. apply elem_of_list_to_set in Hx.
    apply list_elem_of_fmap in Hx as (k & -> & Hk).
    rewrite Forall_forall in Hall. by apply Hall. }
  apply subseteq_size in Hsub.
  rewrite size_list_to_set in Hsub by done.
  rewrite length_fmap, length_seq in Hsub. lia.
- apply not_Forall_Exists in Hex; [|intros k; apply _].
  apply Exists_exists in Hex as (k & Hk & Hfree).
  apply elem_of_seq in Hk. exists k. split; [lia|].
  rewrite path_exists_entries by (by apply dup_candidate_tail).
  by apply bool_decide_eq_false.
Qed.

Lemma least_dup_candidate_free (fs : FileSystem)
    (duplicates_dir dup_dest : Path) (n : nat) :
  path_exists fs (dup_candidate duplicates_dir dup_dest n) = false ->
  exists k, (k <= n)%nat /\
    path_exists fs (dup_candidate duplicates_dir dup_dest k) = false /\
    (forall j, (j < k)%nat ->
       path_exists fs (dup_candidate duplicates_dir dup_dest j) = true).
Proof.
induction n as [n IH] using lt_wf_ind. intros Hfree.
destruct (decide (Forall
  (fun j => path_exists fs (dup_candidate duplicates_dir dup_dest j) = true)
  (seq 0 n))) as [Hall|Hex].
- exists n. split; [lia|]. split; [done|].
  intros j Hj. rewrite Forall_forall in Hall. apply Hall.
  apply elem_of_seq. lia.
- apply not_Forall_Exists in Hex; [|intros k; apply _].
  apply Exists_exists in Hex as (m & Hm & Hmfree).
  apply elem_of_seq in Hm. apply not_true_is_false in Hmfree.
  destruct (IH m ltac:(lia) Hmfree) as (k & Hk & Hkfree & Hbelow).
  exists k. split; [lia | done].
Qed.

Lemma dup_loop_first_free (fs : FileSystem) (duplicates_dir dup_dest : Path)
    (fuel : nat) :
  forall j k,
    (j <= k)%nat -> (k - j < fuel)%nat ->
    path_exists fs (dup_candidate duplicates_dir dup_dest k) = false ->
    (forall i, (j <= i < k)%nat ->
       path_exists fs (dup_candidate duplicates_dir dup_dest i) = true) ->
    dup_loop fuel fs duplicates_dir
      (dup_candidate duplicates_dir dup_dest j) (S j)
    = Some (dup_candidate duplicates_dir dup_dest k).
Proof.
induction fuel as [|fuel IH]; intros j k Hle Hfuel Hfree Hbelow; [lia|].
cbn [dup_loop].
destruct (decide (j = k)) as [->|Hne].
- by rewrite Hfree.
- rewrite Hbelow by lia.
  change (child duplicates_dir _)
    with (dup_candidate duplicates_dir dup_dest (S j)).
  apply IH; [lia | lia | done |]. intros i Hi. apply Hbelow. lia.
Qed.

(** X22: for a duplicate, the loop of [save_attachment] returns the first
    path that does not exist in its own sequence, in which every name is
    formed from the previous candidate rather than from the original
    name (f.txt, f_1.txt, f_1_2.txt, ...); it ends after at most as many
    steps as the file system has entries. *)
Theorem dup_loop_result (fs : FileSystem) (duplicates_dir dup_dest : Path) :
  tail dup_dest <> [] ->
  exists k,
    (k <= size (entries fs))%nat /\
    (forall j, (j < k)%nat ->
       path_exists fs (dup_candidate duplicates_dir dup_dest j) = true) /\
    path_exists fs (dup_candidate duplicates_dir dup_dest k) = false /\
    (forall fuel, (k < fuel)%nat ->
       dup_loop fuel fs duplicates_dir dup_dest 1
       = Some (dup_candidate duplicates_dir dup_dest k)).
Proof.
intros Ht.
destruct (some_dup_candidate_free fs duplicates_dir dup_dest Ht)
  as (n & Hn & Hfree).
destruct (least_dup_candidate_free fs duplicates_dir dup_dest n Hfree)
  as (k & Hk & Hkfree & Hbelow).
exists k. split; [lia|]. split; [done|]. split; [done|].
intros fuel Hfuel.
apply (dup_loop_first_free fs duplicates_dir dup_dest fuel 0 k);
  [lia | lia | done |]. intros i Hi. apply Hbelow. lia.
Qed.

Definition dups : Path := mkPath [] [py "out"; py "duplicates"].

Example dup_candidate_names :
  dup_candidate dups (child dups (py "f.txt")) 3
  = child dups (py "f_1_2_3.txt") /\
  candidate (child dups (py "f.txt")) 3 = child dups (py "f_3.txt").
Proof. split; reflexivity. Qed.

Lemma dup_loop_result_witness :
  exists k, (k <= 0)%nat /\
    dup_loop 1 empty_fs dups (child dups (py "f.txt")) 1
    = Some (dup_candidate dups (child dups (py "f.txt")) k).
Proof.
destruct (dup_loop_result empty_fs dups (child dups (py "f.txt")))
  as (k & Hk & _ & _ & Hrun); [done|].
exists k. split; [exact Hk|]. apply Hrun.
change (size (entries empty_fs)) with 0%nat in Hk. lia.
Defined.

End MainAttachmentProps.

Module MainAttachmentSave.
Import Exporters MainAttachment UniquePath UniquePathProps MainAttachmentProps.

(** One file system holds everything another holds. *)
Definition grows (a b : FileSystem) : Prop :=
dirs a ⊆ dirs b /\ files a ⊆ files b.

Lemma grows_refl (a : FileSystem) : grows a a.
Proof. by split. Qed.

Lemma grows_trans (a b c : FileSystem) :
  grows a b -> grows b c -> grows a c.
Proof. intros [? ?] [? ?]. split; by etrans. Qed.

Lemma mkdir_parents_grows (fs : FileSystem) (p : Path) (fs' : FileSystem) :
  mkdir_parents fs p = Ok fs' -> grows fs fs' /\ files fs' = files fs.
Proof.
unfold mkdir_parents. destruct (bool_decide _); [done|].
destruct (existsb _ _); [done|]. intros [= <-]. split; [|done].
split; [|done]. cbn [dirs]. intros x Hx.
apply elem_of_union. left. apply elem_of_union. by left.
Qed.

Lemma write_file_grows (fs : FileSystem) (p : Path) (fs' : FileSystem) :
  write_file fs p = Ok fs' ->
  grows fs fs' /\ dirs fs' = dirs fs /\ files fs' = files fs ∪ {[p]}.
Proof.
unfold write_file. destruct (is_dir fs p); [done|].
destruct (negb _); [done|]. intros [= <-]. split; [|done].
split; [done|]. cbn [files]. intros x Hx. apply elem_of_union. by left.
Qed.

Lemma path_exists_grows (a b : FileSystem) (p : Path) :
  grows a b -> path_exists a p = true -> path_exists b p = true.
Proof.
intros [Hd Hf]. unfold path_exists, is_dir.
rewrite !orb_true_iff, !bool_decide_eq_true.
intros [[?|?]|?]; auto.
Qed.

Lemma final_loop_free (fs : FileSystem) (dest : Path) (fuel : nat) :
  forall x c q,
  final_loop fuel fs dest x c = Some (Ok q) -> path_exists fs q = false.
Proof.
induction fuel as [|fuel IH]; intros x c q; [done|]. cbn [final_loop].
destruct (path_exists fs x) eqn:Hx.
- destruct (with_name _ _); [apply IH | done].
- by intros [= <-].
Qed.

Lemma dup_loop_free (fs : FileSystem) (dir : Path) (fuel : nat) :
  forall x c q,
  dup_loop fuel fs dir x c = Some q -> path_exists fs q = false.
Proof.
induction fuel as [|fuel IH]; intros x c q; [done|]. cbn [dup_loop].
destruct (path_exists fs x) eqn:Hx; [apply IH | by intros [= <-]].
Qed.


Section WithLibrary.
Variable truediv : Path -> str -> Path.
Variable path_str : Path -> str.
Variable md5_hexdigest : str -> str.
Variable algorithms_available : list str.

(** The inline test at the head of [save_attachment]. *)
Definition skipped_inline (attachment : ComAttachment) (args : Args) : bool :=
negb (MainArgs.include_inline args)
&& bool_decide (default 0 (Position attachment) = 0)
&& bool_decide (Type_ attachment = Some 5).

(** The directory [save_attachment] settles on, and the world after it
    has been made. *)
Definition made_dir (base_dir : Path) (message : Message) (received_hms : str)
    (args : Args) (w : World) : outcome Path * World :=
let raw_subject := or_else (Subject message) [] in
let subject :=
  Main.sanitize_for_fs raw_subject (MainArgs.subject_sanitize_length args) in
let sender :=
  Main.sanitize_for_fs (or_else (SenderEmailAddress message) (py "unknown"))
                       120 in
let date_folder := ReceivedTime_ymd message in
let target_dir := child (child (child base_dir sender) subject) date_folder in
let target_dir :=
  if len (path_str target_dir) >? 200 then
    let short_subject := Main.sanitize_for_fs raw_subject 50 in
    let target_dir :=
      child (child (child base_dir sender) short_subject) date_folder in
    if len (path_str target_dir) >? 200 then
      let subject_hash := slice_to 8 (md5_hexdigest raw_subject) in
      child (child (child base_dir sender) (py "subj_" ++ subject_hash))
            date_folder
    else target_dir
  else target_dir in
match mkdir_parents (fs w) target_dir with
| Ok fs1 => (Ok target_dir, set_fs w fs1)
| Raise _ =>
    let w := logging_log WARNING "Failed to create directory. Using fallback."
               (Some target_dir) w in
    let fallback_name :=
      sender ++ py "_" ++ date_folder ++ py "_" ++ received_hms in
    let target_dir :=
      child base_dir (Main.sanitize_for_fs fallback_name 100) in
    match mkdir_parents (fs w) target_dir with
    | Ok fs1 => (Ok target_dir, set_fs w fs1)
    | Raise e => (Raise e, w)
    end
end.

(** What [save_attachment] does once the directory exists. *)
Definition store (fuel : nat) (target_dir : Path) (attachment : ComAttachment)
    (args : Args) (seen_hashes : gmap str (list Path)) (w : World)
    : option (outcome (option Path) * World * gmap str (list Path)) :=
let filename :=
  Main.sanitize_for_fs
    (or_else (FileName attachment) (py "attachment.bin")) 255 in
let dest_path := child target_dir filename in
if MainArgs.dry_run args then
  Some (Ok (Some dest_path),
        logging_log INFO "[DRY-RUN] Would save attachment" (Some dest_path) w,
        seen_hashes)
else
  match with_suffix dest_path (suffix dest_path ++ py ".tmp") with
  | Raise e => Some (Raise e, w, seen_hashes)
  | Ok temp_path =>
      let failed :=
        Some (Ok None,
              logging_log WARNING "Failed to save attachment temp file"
                (Some temp_path) w,
              seen_hashes) in
      if negb (SaveAsFile_succeeds attachment) then failed
      else
        match write_file (fs w) temp_path with
        | Raise _ => failed
        | Ok fs2 =>
            let w := set_fs w fs2 in
            if negb (bool_decide
                       (MainArgs.hash_algorithm args ∈ algorithms_available))
            then Some (Raise (ValueError "unsupported hash type"), w,
                       seen_hashes)
            else
              let file_hash := content_hash attachment in
              match seen_hashes !! file_hash with
              | Some locations =>
                  let duplicates_dir :=
                    truediv target_dir (MainArgs.duplicates_subfolder args) in
                  match mkdir_parents (fs w) duplicates_dir with
                  | Raise e => Some (Raise e, w, seen_hashes)
                  | Ok fs3 =>
                      let w := set_fs w fs3 in
                      match dup_loop fuel (fs w) duplicates_dir
                              (child duplicates_dir filename) 1 with
                      | None => None
                      | Some dup_dest =>
                          let w :=
                            set_fs w (rename (fs w) temp_path dup_dest) in
                          Some (Ok (Some dup_dest),
                                logging_log INFO "Duplicate detected"
                                  (Some dup_dest) w,
                                <[file_hash := locations ++ [dup_dest]]>
                                  seen_hashes)
                      end
                  end
              | None =>
                  match final_loop fuel (fs w) dest_path dest_path 1 with
                  | None => None
                  | Some (Raise e) => Some (Raise e, w, seen_hashes)
                  | Some (Ok final_path) =>
                      let w :=
                        set_fs w (rename (fs w) temp_path final_path) in
                      Some (Ok (Some final_path),
                            logging_log DEBUG "Saved attachment"
                              (Some final_path) w,
                            <[file_hash := [final_path]]> seen_hashes)
                  end
              end
        end
  end.

Lemma save_attachment_split (fuel : nat) (base_dir : Path) (message : Message)
    (received_hms : str) (attachment : ComAttachment) (args : Args)
    (seen_hashes : gmap str (list Path)) (w : World) :
  save_attachment truediv path_str md5_hexdigest algorithms_available fuel
    base_dir message received_hms attachment args seen_hashes w
  = if skipped_inline attachment args then Some (Ok None, w, seen_hashes)
    else match made_dir base_dir message received_hms args w with
         | (Raise e, w1) => Some (Raise e, w1, seen_hashes)
         | (Ok target_dir, w1) =>
             store fuel target_dir attachment args seen_hashes w1
         end.
Proof.
unfold save_attachment, skipped_inline, made_dir, store. cbv zeta.
destruct (_ && _ && _); [reflexivity|].
destruct (mkdir_parents _ _); [reflexivity|].
destruct (mkdir_parents _ _); reflexivity.
Qed.

Lemma made_dir_grows (base_dir : Path) (message : Message) (hms : str)
    (args : Args) (w w1 : World) (r : outcome Path) :
  made_dir base_dir message hms args w = (r, w1) ->
  grows (fs w) (fs w1) /\ files (fs w1) = files (fs w).
Proof.
unfold made_dir. cbv zeta.
match goal with |- context [mkdir_parents (fs w) ?t] => set (T := t) end.
destruct (mkdir_parents (fs w) T) as [fs1|e] eqn:H1.
- intros [= <- <-]. cbn [fs set_fs]. by apply mkdir_parents_grows in H1.
- match goal with |- context [mkdir_parents ?f ?t] =>
    destruct (mkdir_parents f t) as [fs1|e'] eqn:H2
  end.
  + rewrite RunMore.logging_log_files in H2.
    intros [= <- <-]. cbn [fs set_fs]. by apply mkdir_parents_grows in H2.
  + intros [= <- <-]. rewrite RunMore.logging_log_files.
    split; [apply grows_refl | done].
Qed.

Lemma store_saved (fuel : nat) (target_dir : Path)
    (attachment : ComAttachment) (args : Args)
    (seen seen' : gmap str (list Path)) (w w' : World) (p : Path) :
  store fuel target_dir attachment args seen w = Some (Ok (Some p), w', seen') ->
  MainArgs.dry_run args = false ->
  (p ∈ files (fs w')) /\
  path_exists (fs w) p = false /\
  seen' = <[content_hash attachment :=
              default [] (seen !! content_hash attachment) ++ [p]]> seen /\
  SaveAsFile_succeeds attachment = true /\
  dirs (fs w) ⊆ dirs (fs w').
Proof.
intros H Hdry. unfold store in H. rewrite Hdry in H. cbv zeta in H.
destruct (with_suffix _ _) as [temp_path|]; [|discriminate H].
destruct (SaveAsFile_succeeds attachment); [|discriminate H]. cbn [negb] in H.
destruct (write_file (fs w) temp_path) as [fs2|] eqn:Hw; [|discriminate H].
apply write_file_grows in Hw as (Hg2 & Hd2 & Hf2).
destruct (negb _); [discriminate H|]. cbn [fs set_fs] in H.
destruct (seen !! content_hash attachment) as [locations|] eqn:Hseen.
- destruct (mkdir_parents fs2 _) as [fs3|] eqn:Hm; [|discriminate H].
  apply mkdir_parents_grows in Hm as (Hg3 & Hf3).
  destruct (dup_loop _ _ _ _ _) as [q|] eqn:Hloop; [|discriminate H].
  apply dup_loop_free in Hloop.
  injection H as <- <- <-. rewrite RunMore.logging_log_files.
  cbn [fs set_fs rename files dirs default].
  split; [apply elem_of_union; right; by apply elem_of_singleton|].
  split.
  { destruct (path_exists (fs w) q) eqn:Hq; [|done].
    apply (path_exists_grows _ fs3) in Hq; [congruence|].
    by apply (grows_trans _ fs2). }
  split; [done|]. split; [done|].
  destruct Hg2 as [? _], Hg3 as [? _]. by etrans.
- destruct (final_loop _ _ _ _ _) as [[q|]|] eqn:Hloop; try discriminate H.
  apply final_loop_free in Hloop.
  injection H as <- <- <-. rewrite RunMore.logging_log_files.
  cbn [fs set_fs rename files dirs default app].
  split; [apply elem_of_union; right; by apply elem_of_singleton|].
  split.
  { destruct (path_exists (fs w) q) eqn:Hq; [|done].
    apply (path_exists_grows _ fs2) in Hq; [congruence | done]. }
  split; [done|]. split; [done|]. by destruct Hg2.
Qed.



(** X23: when [save_attachment] of main.py returns a path outside
    dry-run mode, the client's save succeeded, the path is a file that
    exists afterwards and did not exist before the call (nothing is
    overwritten), no directory has disappeared, and [seen_hashes] is
    updated exactly as [DuplicateTracker.register_file] would update it
    for that path and the hash of the saved bytes. *)
Theorem save_attachment_saved (fuel : nat) (base_dir : Path)
    (message : Message) (received_hms : str) (attachment : ComAttachment)
    (args : Args) (seen_hashes seen' : gmap str (list Path)) (w w' : World)
    (p : Path) :
  save_attachment truediv path_str md5_hexdigest algorithms_available fuel
    base_dir message received_hms attachment args seen_hashes w
  = Some (Ok (Some p), w', seen') ->
  MainArgs.dry_run args = false ->
  SaveAsFile_succeeds attachment = true /\
  (p ∈ files (fs w')) /\
  path_exists (fs w) p = false /\
  dirs (fs w) ⊆ dirs (fs w') /\
  seen'
  = Duplicates.seen_hashes
      (Duplicates.register_file
         (Duplicates.mkTracker (MainArgs.hash_algorithm args) seen_hashes)
         p (content_hash attachment)).
Proof.
rewrite save_attachment_split. intros H Hdry.
destruct (skipped_inline attachment args); [discriminate H|].
destruct (made_dir base_dir message received_hms args w) as [[t|e] w1] eqn:Hm;
  [|discriminate H].
apply made_dir_grows in Hm as (Hg & Hf).
destruct (store_saved _ _ _ _ _ _ _ _ _ H Hdry) as (Hin & Hfree & -> & Hs & Hd).
split; [done|]. split; [done|]. split.
{ destruct (path_exists (fs w) p) eqn:Hq; [|done].
  apply (path_exists_grows _ (fs w1)) in Hq; [congruence | done]. }
split; [destruct Hg; by etrans|].
by rewrite DuplicatesProps.register_file_seen.
Qed.

(** X24: [save_attachment] leaves [seen_hashes] alone unless it returns
    a path outside dry-run mode.  A skipped inline attachment changes
    nothing at all, and in dry-run mode no file is created or removed. *)
Theorem save_attachment_frame (fuel : nat) (base_dir : Path)
    (message : Message) (received_hms : str) (attachment : ComAttachment)
    (args : Args) (seen_hashes seen' : gmap str (list Path)) (w w' : World)
    (r : outcome (option Path)) :
  save_attachment truediv path_str md5_hexdigest algorithms_available fuel
    base_dir message received_hms attachment args seen_hashes w
  = Some (r, w', seen') ->
  (skipped_inline attachment args = true ->
   r = Ok None /\ w' = w /\ seen' = seen_hashes) /\
  (MainArgs.dry_run args = true ->
   seen' = seen_hashes /\ files (fs w') = files (fs w)) /\
  ((forall p, r <> Ok (Some p)) -> seen' = seen_hashes).
Proof.
rewrite save_attachment_split. intros H.
destruct (skipped_inline attachment args).
{ injection H as <- <- <-. done. }
split; [done|].
destruct (made_dir base_dir message received_hms args w) as [[t|e] w1] eqn:Hm.
2:{ injection H as <- <- <-. apply made_dir_grows in Hm as (_ & Hf). done. }
apply made_dir_grows in Hm as (_ & Hf).
unfold store in H. cbv zeta in H.
destruct (MainArgs.dry_run args).
{ injection H as <- <- <-. rewrite RunMore.logging_log_files.
  split; [done|]. done. }
split; [done|].
destruct (with_suffix _ _) as [temp_path|]; [|by injection H as <- <- <-].
destruct (negb (SaveAsFile_succeeds attachment));
  [by injection H as <- <- <-|].
destruct (write_file (fs w1) temp_path) as [fs2|];
  [|by injection H as <- <- <-].
destruct (negb _); [by injection H as <- <- <-|].
destruct (seen_hashes !! content_hash attachment) as [locations|].
- destruct (mkdir_parents _ _); [|by injection H as <- <- <-].
  destruct (dup_loop _ _ _ _ _) as [q|]; [|discriminate H].
  injection H as <- <- <-. intros Hno. by destruct (Hno q).
- destruct (final_loop _ _ _ _ _) as [[q|]|]; [| |discriminate H].
  + injection H as <- <- <-. intros Hno. by destruct (Hno q).
  + by injection H as <- <- <-.
Qed.

Lemma tail_child (d : Path) (x : str) : tail (child d x) <> [].
Proof. unfold child. cbn [tail]. by destruct (tail d). Qed.

Lemma sanitize_for_fs_nonempty (s : str) (n : Z) :
  Main.sanitize_for_fs s n <> [].
Proof.
unfold Main.sanitize_for_fs. cbv zeta. by case_decide.
Qed.

(** X25: [save_attachment] always comes to an end: for every input there
    is an amount of fuel with which the two renaming loops have
    returned. *)
Theorem save_attachment_returns (base_dir : Path) (message : Message)
    (received_hms : str) (attachment : ComAttachment) (args : Args)
    (seen_hashes : gmap str (list Path)) (w : World) :
  exists fuel result,
    save_attachment truediv path_str md5_hexdigest algorithms_available fuel
      base_dir message received_hms attachment args seen_hashes w
    = Some result.
Proof.
assert (Hsplit := fun fuel =>
  save_attachment_split fuel base_dir message received_hms attachment args
    seen_hashes w).
destruct (skipped_inline attachment args).
{ exists O. eexists. by rewrite Hsplit. }
destruct (made_dir base_dir message received_hms args w) as [[t|e] w1].
2:{ exists O. eexists. by rewrite Hsplit. }
assert (Hstore : exists fuel result,
  store fuel t attachment args seen_hashes w1 = Some result).
{ unfold store. cbv zeta.
  set (filename := Main.sanitize_for_fs _ 255).
  set (dest_path := child t filename).
  assert (Hname : name dest_path <> []).
  { unfold dest_path. rewrite name_child. apply sanitize_for_fs_nonempty. }
  destruct (MainArgs.dry_run args); [exists O; eauto|].
  destruct (ExporterProps.with_suffix_tmp_ok dest_path Hname)
    as [temp_path ->].
  destruct (negb (SaveAsFile_succeeds attachment)); [exists O; eauto|].
  destruct (write_file (fs w1) temp_path) as [fs2|]; [|exists O; eauto].
  destruct (negb (bool_decide _)); [exists O; eauto|].
  cbn [fs set_fs].
  destruct (seen_hashes !! content_hash attachment) as [locations|].
  - destruct (mkdir_parents fs2 _) as [fs3|]; [|exists O; eauto].
    match goal with
    | |- context [dup_loop _ fs3 ?d ?x 1] =>
        destruct (dup_loop_result fs3 d x (tail_child _ _))
          as (k & _ & _ & _ & Hrun)
    end.
    exists (S k). rewrite Hrun by lia. eauto.
  - destruct (ensure_unique_path_fuel_enough (entries fs2) dest_path Hname)
      as [q Hq].
    exists (S (S (size (entries fs2)))).
    rewrite final_loop_is_ensure_unique_path, Hq by done. eauto. }
destruct Hstore as (fuel & result & Hstore).
exists fuel, result. by rewrite Hsplit.
Qed.

End WithLibrary.

(** Two attachments with the same bytes on one message: the first is
    stored under its own name, the second in the duplicates folder, and
    both paths are recorded under the hash. *)
Example save_attachment_duplicate :
  let out := mkPath [] [py "out"] in
  let message :=
    mkMessage (Some (py "Report")) (Some (py "a@x.com")) None 0
              (py "2024-01-15") 1 true in
  let attachment :=
    mkAttachment (Some 1) (Some 1) (Some (py "f.txt")) true (py "h1") in
  let args :=
    mkArgs out None None None None None false false None None 200 false
           false None (py "duplicates") (py "sha256") false false false 80 0
           false in
  let first := mkPath [] [py "out"; py "a@x.com"; py "Report";
                          py "2024-01-15"; py "f.txt"] in
  let second := mkPath [] [py "out"; py "a@x.com"; py "Report";
                           py "2024-01-15"; py "duplicates"; py "f.txt"] in
  let save := save_attachment child FolderPathProps.slash_str
                FolderPathProps.fixed_digest [py "sha256"] 5 out message
                (py "101500") attachment args in
  let returned (r : option (outcome (option Path) * World
                            * gmap str (list Path))) :=
    match r with
    | Some (result, _, seen) => Some (result, seen !! py "h1")
    | None => None
    end in
  returned (save ∅ (initial_world empty_fs))
  = Some (Ok (Some first), Some [first]) /\
  match save ∅ (initial_world empty_fs) with
  | Some (_, w1, seen1) =>
      returned (save seen1 w1) = Some (Ok (Some second), Some [first; second])
  | None => False
  end.
Proof.
cbv zeta. split; vm_compute; reflexivity.
Qed.

Lemma save_attachment_saved_witness :
  let out := mkPath [] [py "out"] in
  let message :=
    mkMessage (Some (py "Report")) (Some (py "a@x.com")) None 0
              (py "2024-01-15") 1 true in
  let attachment :=
    mkAttachment (Some 1) (Some 1) (Some (py "f.txt")) true (py "h1") in
  let args :=
    mkArgs out None None None None None false false None None 200 false
           false None (py "duplicates") (py "sha256") false false false 80 0
           false in
  exists w' seen',
    save_attachment child FolderPathProps.slash_str
      FolderPathProps.fixed_digest [py "sha256"] 5 out message (py "101500")
      attachment args ∅ (initial_world empty_fs)
    = Some (Ok (Some (mkPath [] [py "out"; py "a@x.com"; py "Report";
                                 py "2024-01-15"; py "f.txt"])),
            w', seen') /\
    (mkPath [] [py "out"; py "a@x.com"; py "Report"; py "2024-01-15";
                py "f.txt"] ∈ files (fs w')).
Proof.
cbv zeta.
destruct (save_attachment _ _ _ _ _ _ _ _ _ _ _ _) as [[[r w'] seen']|] eqn:E.
- pose proof (f_equal (fun x => match x with
                                | Some (r, _, _) => Some r
                                | None => None
                                end) E) as Hr.
  vm_compute in Hr. injection Hr as <-.
  exists w', seen'. split; [reflexivity|].
  apply (save_attachment_saved _ _ _ _ _ _ _ _ _ _ _ _ _ _ _ E eq_refl).
- pose proof (f_equal (fun x => match x with
                                | Some _ => true
                                | None => false
                                end) E) as Hr.
  vm_compute in Hr. discriminate Hr.
Defined.

Lemma save_attachment_frame_witness :
  let out := mkPath [] [py "out"] in
  let message :=
    mkMessage (Some (py "Report")) (Some (py "a@x.com")) None 0
              (py "2024-01-15") 1 true in
  let inline_image :=
    mkAttachment None (Some 5) (Some (py "logo.png")) true (py "h2") in
  let args :=
    mkArgs out None None None None None false false None None 200 false
           false None (py "duplicates") (py "sha256") false false false 80 0
           false in
  save_attachment child FolderPathProps.slash_str
    FolderPathProps.fixed_digest [py "sha256"] 0 out message (py "101500")
    inline_image args ∅ (initial_world empty_fs)
  = Some (Ok None, initial_world empty_fs, ∅).
Proof.
cbv zeta.
destruct (save_attachment _ _ _ _ _ _ _ _ _ _ _ _) as [[[r w'] seen']|] eqn:E;
  [|discriminate E].
destruct (proj1 (save_attachment_frame _ _ _ _ _ _ _ _ _ _ _ _ _ _ _ E)
            eq_refl) as (-> & -> & ->).
reflexivity.
Defined.

End MainAttachmentSave.

(** ** Hashing a file in chunks *)

Module Hashing.
Section WithHashlib.

(** A hash object of [hashlib]: its states, [update] and [hexdigest].
    [hexdigest()] without a length raises TypeError for the
    variable-length algorithms (shake_128, shake_256), which are among
    the available ones. *)
Variable hash_state : Type.
Variable update : hash_state -> list N -> hash_state.
Variable hexdigest : hash_state -> outcome str.

(** [for chunk in iter(lambda: f.read(size), b'')]: the chunks are read
    until a read returns no bytes; [None] when the fuel runs out. *)
Fixpoint read_chunks (fuel : nat) (size : nat) (hasher : hash_state)
    (unread : list N) : option hash_state :=
match fuel with
| O => None
| S fuel' =>
    match take size unread with
    | [] => Some hasher
    | chunk => read_chunks fuel' size (update hasher chunk) (drop size unread)
    end
end.

(** [compute_hash(path, algo)], main.py 184-189: [new] is what
    [hashlib.new(algo)] gives and [content] what opening the file
    gives.  No exception is caught. *)
Definition compute_hash (fuel : nat) (new : outcome hash_state)
    (content : outcome (list N)) : option (outcome str) :=
match new with
| Raise e => Some (Raise e)
| Ok h =>
    match content with
    | Raise e => Some (Raise e)
    | Ok bytes =>
        match read_chunks fuel (N.to_nat 8192) h bytes with
        | Some h => Some (hexdigest h)
        | None => None
        end
    end
end.

(** [except (IOError, OSError) as e: raise DuplicateDetectionError(...)]:
    the other exceptions pass. *)
Definition reraise {A : Type} (r : outcome A) : outcome A :=
match r with
| Raise (OSError _) => Raise (DuplicateDetectionError "Failed to compute hash")
| r => r
end.

(** [DuplicateTracker.compute_file_hash], duplicates.py 45-72: the whole
    body, [hashlib.new] and [hexdigest] included, is inside the [try]. *)
Definition compute_file_hash (fuel : nat) (new : outcome hash_state)
    (content : outcome (list N)) : option (outcome str) :=
match new with
| Raise e => Some (reraise (Raise e))
| Ok hasher =>
    match content with
    | Raise e => Some (reraise (Raise e))
    | Ok bytes =>
        match read_chunks fuel (N.to_nat 8192) hasher bytes with
        | Some hasher => Some (reraise (hexdigest hasher))
        | None => None
        end
    end
end.

End WithHashlib.
End Hashing.

Module HashingProps.
Import Hashing.

Section WithHashlib.

Variable hash_state : Type.
Variable update : hash_state -> list N -> hash_state.
Variable hexdigest : hash_state -> outcome str.

(** Feeding a hash object piece by piece is feeding it the whole. *)
Hypothesis update_app :
  forall h a b, update (update h a) b = update h (a ++ b).
Hypothesis update_nil : forall h, update h [] = h.

Lemma read_chunks_whole (size : nat) (fuel : nat) :
  (0 < size)%nat ->
  forall hasher unread,
    (length unread < fuel)%nat ->
    read_chunks hash_state update fuel size hasher unread
    = Some (update hasher unread).
Proof.
intros Hsize. induction fuel as [|fuel IH]; intros hasher unread Hfuel; [lia|].
cbn [read_chunks].
destruct (take size unread) as [|b chunk] eqn:Htake.
- destruct unread as [|x unread]; [by rewrite update_nil|].
  destruct size; [lia | discriminate Htake].
- rewrite IH.
  + by rewrite update_app, <- Htake, take_drop.
  + rewrite length_drop.
    assert (0 < length unread)%nat; [|lia].
    destruct unread; [by rewrite take_nil in Htake | simpl; lia].
Qed.

(** X26: reading in chunks of 8192 bytes does not change the outcome.
    On a readable file both [compute_hash] of main.py and
    [DuplicateTracker.compute_file_hash] end with what [hexdigest()]
    gives on a hash object that was fed the whole content.  So both
    return the same digest when [hexdigest()] returns one, and both
    raise its TypeError (shake_128, shake_256), which neither catches.
    On a file that cannot be opened the tracker raises
    DuplicateDetectionError where main.py lets the OSError through. *)
Theorem compute_hash_whole_file (new : hash_state) (bytes : list N)
    (fuel : nat) :
  (length bytes < fuel)%nat ->
  compute_hash hash_state update hexdigest fuel (Ok new) (Ok bytes)
  = Some (hexdigest (update new bytes)) /\
  (forall digest, hexdigest (update new bytes) = Ok digest ->
     compute_file_hash hash_state update hexdigest fuel (Ok new) (Ok bytes)
     = Some (Ok digest)) /\
  (forall msg, hexdigest (update new bytes) = Raise (TypeError msg) ->
     compute_file_hash hash_state update hexdigest fuel (Ok new) (Ok bytes)
     = Some (Raise (TypeError msg))) /\
  (forall msg,
     compute_hash hash_state update hexdigest fuel (Ok new)
       (Raise (OSError msg))
     = Some (Raise (OSError msg)) /\
     exists msg',
       compute_file_hash hash_state update hexdigest fuel (Ok new)
         (Raise (OSError msg))
       = Some (Raise (DuplicateDetectionError msg'))).
Proof.
intros Hfuel. unfold compute_hash, compute_file_hash.
rewrite read_chunks_whole by lia.
split; [done|]. split; [by intros digest ->|]. split; [by intros msg ->|].
intros msg. split; [done|]. cbn [reraise]. eauto.
Qed.

End WithHashlib.

(** A hash object that only collects what it is fed and, like the
    shake algorithms, has no digest without a length. *)
Lemma compute_hash_whole_file_witness :
  compute_hash (list N) (fun h a => h ++ a)
    (fun _ => Raise (TypeError "hexdigest() missing required argument"))
    4 (Ok []) (Ok [1; 2; 3]%N)
  = Some (Raise (TypeError "hexdigest() missing required argument")) /\
  compute_file_hash (list N) (fun h a => h ++ a) (fun h => Ok h)
    4 (Ok []) (Ok [1; 2; 3]%N)
  = Some (Ok [1; 2; 3]%N).
Proof.
split.
- apply (proj1 (compute_hash_whole_file (list N) (fun h a => h ++ a)
                  (fun _ => Raise (TypeError _))
                  (fun h a b => eq_sym (app_assoc h a b))
                  (fun h => app_nil_r h)
                  [] [1; 2; 3]%N 4 ltac:(simpl; lia))).
- apply (proj1 (proj2 (compute_hash_whole_file (list N) (fun h a => h ++ a)
                         (fun h => Ok h)
                         (fun h a b => eq_sym (app_assoc h a b))
                         (fun h => app_nil_r h)
                         [] [1; 2; 3]%N 4 ltac:(simpl; lia)))).
  reflexivity.
Defined.

End HashingProps.
